(** * UNICEF query adapter and chart renderer: a shallow embedding

    The repository has two leaves:
    - [unicef-mcp-server/index.js], a tool-dispatch adapter that turns a named
      operation into one HTTP GET against the UNICEF SDMX service;
    - the page script, which installs three charts with placeholder series and
      then tries to overwrite them from [data/summary.json].

    Both are embedded below as Rocq functions.  Remote services are an
    explicit oracle; every request the adapter issues is appended to a log, and
    JavaScript exceptions are an explicit [Throw] outcome. *)

From Stdlib Require Import String Ascii List ZArith QArith Bool Lia DecimalString.
Import ListNotations.

Close Scope Q_scope.
Open Scope list_scope.
Open Scope string_scope.

(** ** JavaScript values and string primitives *)

Module JS.

(** The scalar values a JSON argument object can hold, plus [undefined] for an
    absent property; array and object values are outside this domain.
    Numbers are the integers the tool schemas declare, and [VNum n] stands
    for a JavaScript number only when [n] is a safe integer (see
    [safe_integer] below): a larger integer is rounded by the parser or has
    no number of its own.  A [string] stands for a JavaScript string whose
    code units are all below 256, one [ascii] per code unit. *)
Inductive value : Type :=
| VUndefined
| VNull
| VBool (b : bool)
| VNum (n : Z)
| VStr (s : string).

(** ToBoolean, as used by [if (x)], [x || y] and [!x]. *)
Definition truthy (v : value) : bool :=
  match v with
  | VUndefined | VNull => false
  | VBool b => b
  | VNum n => negb (n =? 0)%Z
  | VStr s => negb (s =? EmptyString)
  end.

(** [Number.MAX_SAFE_INTEGER], 2^53 - 1. *)
Definition MAX_SAFE_INTEGER : Z := 9007199254740991.

(** The integers that a number holds exactly and prints digit for digit. *)
Definition safe_integer (n : Z) : bool :=
  (Z.abs n <=? MAX_SAFE_INTEGER)%Z.

(** A value whose number, if it is one, is a safe integer. *)
Definition safe (v : value) : bool :=
  match v with
  | VNum n => safe_integer n
  | _ => true
  end.

(** The decimal digits of an integer.  This is the text JavaScript prints
    for a safe integer; beyond that range JavaScript prints the shortest
    digits that round to the number, and an exponent from 10^21 on, which
    [decimal] does not follow. *)
Definition decimal (n : Z) : string := NilZero.string_of_int (Z.to_int n).

(** ToString, as used by template literals [`${x}`], for [safe] values. *)
Definition to_string (v : value) : string :=
  match v with
  | VUndefined => "undefined"
  | VNull => "null"
  | VBool true => "true"
  | VBool false => "false"
  | VNum n => decimal n
  | VStr s => s
  end.

(** ToBoolean of a string-valued optional property. *)
Definition truthy_str (o : option string) : bool :=
  match o with
  | Some s => negb (s =? EmptyString)
  | None => false
  end.

(** [a || b] where [a] is an optional string and [b] a string. *)
Definition or_else (a : option string) (b : string) : string :=
  match a with
  | Some s => if s =? EmptyString then b else s
  | None => b
  end.

(** [a || b] where both sides are optional strings. *)
Definition or_opt (a b : option string) : option string :=
  if truthy_str a then a else b.

Definition startsWith (needle hay : string) : bool := String.prefix needle hay.

(** [hay.includes(needle)]. *)
Fixpoint includes (needle hay : string) : bool :=
  startsWith needle hay ||
  match hay with
  | EmptyString => false
  | String _ rest => includes needle rest
  end.

(** [x?.includes(needle)] followed by a truthiness test: an absent receiver
    gives [undefined], which is falsy. *)
Definition opt_includes (needle : string) (hay : option string) : bool :=
  match hay with
  | Some s => includes needle s
  | None => false
  end.

(** The lower-case form of a code unit below 256: the letters A to Z, and
    the accented capitals U+00C0 to U+00DE except the sign U+00D7. *)
Definition lower_char (c : ascii) : ascii :=
  let n := nat_of_ascii c in
  if ((65 <=? n)%nat && (n <=? 90)%nat)
     || ((192 <=? n)%nat && (n <=? 222)%nat && negb (n =? 215)%nat)
  then ascii_of_nat (n + 32) else c.

(** [s.toLowerCase()]. *)
Fixpoint toLowerCase (s : string) : string :=
  match s with
  | EmptyString => EmptyString
  | String c rest => String (lower_char c) (toLowerCase rest)
  end.

(** White space removed by [trim], among the code units below 256: TAB, LF,
    VT, FF, CR, SPACE and the no-break space U+00A0. *)
Definition is_space (c : ascii) : bool :=
  let n := nat_of_ascii c in
  ((9 <=? n)%nat && (n <=? 13)%nat) || (n =? 32)%nat || (n =? 160)%nat.

Fixpoint trimStart (s : string) : string :=
  match s with
  | EmptyString => EmptyString
  | String c rest => if is_space c then trimStart rest else s
  end.

(** Drops trailing white space: a space is dropped when everything after it
    has been dropped. *)
Fixpoint trimEnd (s : string) : string :=
  match s with
  | EmptyString => EmptyString
  | String c rest =>
      match trimEnd rest with
      | EmptyString => if is_space c then EmptyString else String c EmptyString
      | t => String c t
      end
  end.

Definition trim (s : string) : string := trimEnd (trimStart s).

Fixpoint all_chars (p : ascii -> bool) (s : string) : bool :=
  match s with
  | EmptyString => true
  | String c rest => p c && all_chars p rest
  end.

(** [xs.join(sep)]. *)
Fixpoint join (sep : string) (xs : list string) : string :=
  match xs with
  | [] => EmptyString
  | [x] => x
  | x :: rest => x ++ sep ++ join sep rest
  end.

(** [xs.slice(0, n)]. *)
Definition slice0 {A : Type} (n : nat) (xs : list A) : list A := firstn n xs.

(** [xs.find(p)]. *)
Definition find {A : Type} (p : A -> bool) (xs : list A) : option A :=
  List.find p xs.

End JS.

(** ** [JSON.stringify(xs, null, 2)] for arrays of flat string records *)

Module Json.

Definition dquote : ascii := "034"%char.
Definition backslash : ascii := "092"%char.
Definition newline : string := String "010"%char EmptyString.

Definition hex_digit (n : nat) : ascii :=
  match n with
  | 0 => "0" | 1 => "1" | 2 => "2" | 3 => "3" | 4 => "4" | 5 => "5"
  | 6 => "6" | 7 => "7" | 8 => "8" | 9 => "9" | 10 => "a" | 11 => "b"
  | 12 => "c" | 13 => "d" | 14 => "e" | _ => "f"
  end%char.

(** The escape of one character inside a JSON string literal. *)
Definition escape_char (c : ascii) : string :=
  let n := nat_of_ascii c in
  let esc (x : ascii) := String backslash (String x EmptyString) in
  if (n =? 34)%nat then esc dquote
  else if (n =? 92)%nat then esc backslash
  else if (n =? 8)%nat then esc "b"%char
  else if (n =? 9)%nat then esc "t"%char
  else if (n =? 10)%nat then esc "n"%char
  else if (n =? 12)%nat then esc "f"%char
  else if (n =? 13)%nat then esc "r"%char
  else if (n <? 32)%nat then
    String backslash ("u00" ++ String (hex_digit (n / 16)) (String (hex_digit (n mod 16)) EmptyString))
  else String c EmptyString.

Fixpoint escape (s : string) : string :=
  match s with
  | EmptyString => EmptyString
  | String c rest => escape_char c ++ escape rest
  end.

Definition quote (s : string) : string :=
  String dquote (escape s ++ String dquote EmptyString).

(** An object literal's properties in source order; a property whose value is
    [undefined] is left out by [JSON.stringify]. *)
Definition object : Type := list (string * option string).

Fixpoint defined (o : object) : list (string * string) :=
  match o with
  | [] => []
  | (k, Some v) :: rest => (k, v) :: defined rest
  | (_, None) :: rest => defined rest
  end.

(** One object, printed as an element of a top-level array. *)
Definition stringify_object (o : object) : string :=
  match defined o with
  | [] => "{}"
  | props =>
      "{" ++ newline
      ++ JS.join ("," ++ newline)
           (map (fun kv => "    " ++ quote (fst kv) ++ ": " ++ quote (snd kv)) props)
      ++ newline ++ "  }"
  end.

Definition stringify (xs : list object) : string :=
  match xs with
  | [] => "[]"
  | _ =>
      "[" ++ newline
      ++ JS.join ("," ++ newline) (map (fun o => "  " ++ stringify_object o) xs)
      ++ newline ++ "]"
  end.

End Json.

(** ** The remote service *)

(** How an awaited call ends: with a value, or with a thrown error carrying
    its [message]. *)
Inductive outcome (A : Type) : Type :=
| Return (a : A)
| Throw (message : string).
Arguments Return {A} a.
Arguments Throw {A} message.

(** The part of an SDMX-JSON structure message the adapter reads.  A field is
    optional where the code guards it with [?.] or [||]. *)
Module Sdmx.

Record Names : Type := { en : option string }.

Module Code.
Record t : Type :=
  { id : option string; names : option Names; name : option string }.
End Code.

Module Codelist.
Record t : Type := { id : option string; codes : option (list Code.t) }.
End Codelist.

Module Dataflow.
Record t : Type :=
  { id : option string; names : option Names; name : option string;
    agencyID : option string }.
End Dataflow.

Record Data : Type :=
  { dataflows : option (list Dataflow.t);
    codelists : option (list Codelist.t) }.

Record Document : Type := { data : option Data }.

(** [x.names?.en]. *)
Definition names_en (n : option Names) : option string :=
  match n with
  | Some n => en n
  | None => None
  end.

End Sdmx.

Module Http.

(** A response: [text] is what [response.text()] resolves to, [json] how
    [response.json()] ends. *)
Record Response : Type :=
  { text : string; json : outcome Sdmx.Document }.

(** The remote service: how [fetch(url)] ends for each URL. *)
Definition Remote : Type := string -> outcome Response.

End Http.

(** ** The adapter's effects: requests issued and errors thrown *)

(** A computation reads the remote service, appends the URLs it requests to
    the log, and ends with a value or a thrown error. *)
Definition M (A : Type) : Type :=
  Http.Remote -> list string -> outcome A * list string.

Definition ret {A : Type} (a : A) : M A := fun _ log => (Return a, log).

Definition throw {A : Type} (message : string) : M A :=
  fun _ log => (Throw message, log).

Definition bind {A B : Type} (m : M A) (k : A -> M B) : M B :=
  fun remote log =>
    match m remote log with
    | (Return a, log') => k a remote log'
    | (Throw message, log') => (Throw message, log')
    end.

(** [try { m } catch (error) { handler(error.message) }]. *)
Definition try_catch {A : Type} (m : M A) (handler : string -> M A) : M A :=
  fun remote log =>
    match m remote log with
    | (Return a, log') => (Return a, log')
    | (Throw message, log') => handler message remote log'
    end.

(** [await fetch(url)]: the request is issued, then the remote answers. *)
Definition fetch (url : string) : M Http.Response :=
  fun remote log => (remote url, (log ++ [url])%list).

(** Lifts the end of an awaited call into the computation. *)
Definition await {A : Type} (o : outcome A) : M A :=
  fun _ log => (o, log).

Declare Scope adapter_scope.
Delimit Scope adapter_scope with adapter.
Notation "x <- m ;; k" := (bind m (fun x => k))
  (at level 61, m at next level, right associativity) : adapter_scope.
Open Scope adapter_scope.

(** Runs a computation from an empty log. *)
Definition run {A : Type} (m : M A) (remote : Http.Remote)
  : outcome A * list string := m remote [].

(** ** The query adapter ([unicef-mcp-server/index.js]) *)

Module UnicefServer.

Import JS.

Definition UNICEF_API_BASE : string :=
  "https://sdmx.data.unicef.org/ws/public/sdmxapi/rest".

(** The names announced by the [ListTools] handler, in source order. *)
Definition tools : list string :=
  [ "list_dataflows"; "get_indicators"; "get_child_poverty_data";
    "get_child_mortality_data"; "get_nutrition_data";
    "get_indicator_for_country"; "search_indicators" ].

Definition registered (name : string) : bool :=
  existsb (String.eqb name) tools.

(** The [arguments] object of a call; a property the caller left out reads as
    [VUndefined]. *)
Record Arguments : Type :=
  { dataflow_id : value;
    country_code : value;
    indicator_id : value;
    start_year : value;
    end_year : value;
    keyword : value }.

(** [request.params]: the operation name and the optional [arguments]. *)
Record Request : Type :=
  { name : string; arguments : option Arguments }.

Record ContentItem : Type := { type : string; text : string }.

Record CallToolResult : Type := { content : list ContentItem }.

(** [{ content: [{ type: "text", text }] }]. *)
Definition text_result (t : string) : CallToolResult :=
  {| content := [ {| type := "text"; text := t |} ] |}.

(** [args.key]: reading a property of a missing [arguments] object throws. *)
Definition arg (args : option Arguments) (key : string)
    (proj : Arguments -> value) : M value :=
  match args with
  | Some a => ret (proj a)
  | None =>
      throw ("Cannot read properties of undefined (reading '" ++ key ++ "')")
  end.

(** [x.names?.en || x.name || "Unknown"]. *)
Definition display_name (names : option Sdmx.Names) (name : option string)
  : string :=
  or_else (or_opt (Sdmx.names_en names) name) "Unknown".

(** [data.data?.dataflows || []]. *)
Definition dataflows_of (data : Sdmx.Document) : list Sdmx.Dataflow.t :=
  match Sdmx.data data with
  | Some d => match Sdmx.dataflows d with Some l => l | None => [] end
  | None => []
  end.

(** [data.data?.codelists || []]. *)
Definition codelists_of (data : Sdmx.Document) : list Sdmx.Codelist.t :=
  match Sdmx.data data with
  | Some d => match Sdmx.codelists d with Some l => l | None => [] end
  | None => []
  end.

Definition listDataflows : M CallToolResult :=
  try_catch
    (response <- fetch (UNICEF_API_BASE
         ++ "/dataflow/all/all/latest/?format=sdmx-json&detail=allstubs") ;;
     data <- await (Http.json response) ;;
     let dataflows := dataflows_of data in
     let result :=
       map (fun df =>
              [ ("id", Sdmx.Dataflow.id df);
                ("name", Some (display_name (Sdmx.Dataflow.names df)
                                            (Sdmx.Dataflow.name df)));
                ("agency", Sdmx.Dataflow.agencyID df) ])
           dataflows in
     ret (text_result (Json.stringify result)))
    (fun message => throw ("Failed to fetch dataflows: " ++ message)).

(** The callback of [codelists.find]:
    [cl.id?.includes("INDICATOR") || cl.id?.includes("IND")]. *)
Definition is_indicator_codelist (cl : Sdmx.Codelist.t) : bool :=
  opt_includes "INDICATOR" (Sdmx.Codelist.id cl)
  || opt_includes "IND" (Sdmx.Codelist.id cl).

(** [code => ({ id: code.id, name: code.names?.en || code.name || "Unknown" })]. *)
Definition indicator_entry (code : Sdmx.Code.t) : Json.object :=
  [ ("id", Sdmx.Code.id code);
    ("name", Some (display_name (Sdmx.Code.names code) (Sdmx.Code.name code))) ].

(** [c => c.id] followed by [join]: a missing identifier prints as nothing. *)
Definition codelist_ids (codelists : list Sdmx.Codelist.t) : list string :=
  map (fun c => match Sdmx.Codelist.id c with Some s => s | None => EmptyString end)
      codelists.

Definition metadataUrl (dataflow : string) : string :=
  UNICEF_API_BASE ++ "/dataflow/UNICEF/" ++ dataflow
  ++ "/latest/?format=sdmx-json&detail=full&references=all".

Definition getIndicators (dataflowId : value) : M CallToolResult :=
  try_catch
    (response <- fetch (metadataUrl (to_string dataflowId)) ;;
     data <- await (Http.json response) ;;
     let codelists := codelists_of data in
     let indicatorCodelist := find is_indicator_codelist codelists in
     match indicatorCodelist with
     | None =>
         ret (text_result
                ("No indicator codelist found for dataflow "
                 ++ to_string dataflowId ++ ". Available codelists: "
                 ++ join ", " (codelist_ids codelists)))
     | Some indicatorCodelist =>
         let indicators :=
           match Sdmx.Codelist.codes indicatorCodelist with
           | Some codes => map indicator_entry codes
           | None => []
           end in
         ret (text_result (Json.stringify (slice0 100 indicators)))
     end)
    (fun message => throw ("Failed to fetch indicators: " ++ message)).

(** The local [dataKey] of [getData]. *)
Definition dataKey (countryCode indicatorId : value) : string :=
  let dataKey := to_string countryCode in
  if truthy indicatorId
  then dataKey ++ "." ++ to_string indicatorId
  else dataKey ++ ".".

(** The local [url] of [getData], after both period tests. *)
Definition dataUrl (dataflowId countryCode indicatorId startYear endYear : value)
  : string :=
  let url := UNICEF_API_BASE ++ "/data/UNICEF," ++ to_string dataflowId
             ++ ",1.0/" ++ dataKey countryCode indicatorId ++ "?format=csv" in
  let url := if truthy startYear
             then url ++ "&startPeriod=" ++ to_string startYear else url in
  let url := if truthy endYear
             then url ++ "&endPeriod=" ++ to_string endYear else url in
  url.

Definition getData (dataflowId countryCode indicatorId startYear endYear : value)
  : M CallToolResult :=
  try_catch
    (let url := dataUrl dataflowId countryCode indicatorId startYear endYear in
     response <- fetch url ;;
     let csvText := Http.text response in
     if (csvText =? EmptyString) || (trim csvText =? EmptyString)
     then ret (text_result ("No data found for " ++ to_string countryCode
                            ++ " in " ++ to_string dataflowId))
     else ret (text_result csvText))
    (fun message => throw ("Failed to fetch data: " ++ message)).

(** [keyword.toLowerCase()] on an argument value. *)
Definition keyword_toLowerCase (keyword : value) : M string :=
  match keyword with
  | VStr s => ret (toLowerCase s)
  | VUndefined =>
      throw "Cannot read properties of undefined (reading 'toLowerCase')"
  | VNull => throw "Cannot read properties of null (reading 'toLowerCase')"
  | VBool _ | VNum _ => throw "keyword.toLowerCase is not a function"
  end.

(** The callback of [codes.filter] in [searchIndicators]. *)
Definition matches_keyword (keywordLower : string) (code : Sdmx.Code.t) : bool :=
  let name :=
    toLowerCase (or_else (or_opt (Sdmx.names_en (Sdmx.Code.names code))
                                 (Sdmx.Code.name code)) EmptyString) in
  let id := toLowerCase (or_else (Sdmx.Code.id code) EmptyString) in
  includes keywordLower name || includes keywordLower id.

Definition searchIndicators (keyword : value) : M CallToolResult :=
  try_catch
    (response <- fetch (metadataUrl "GLOBAL_DATAFLOW") ;;
     data <- await (Http.json response) ;;
     let codelists := codelists_of data in
     let indicatorCodelist := find is_indicator_codelist codelists in
     match indicatorCodelist with
     | None => ret (text_result "Could not find indicator codelist")
     | Some indicatorCodelist =>
         keywordLower <- keyword_toLowerCase keyword ;;
         let matchingIndicators :=
           match Sdmx.Codelist.codes indicatorCodelist with
           | Some codes =>
               map indicator_entry (filter (matches_keyword keywordLower) codes)
           | None => []
           end in
         ret (text_result (Json.stringify (slice0 50 matchingIndicators)))
     end)
    (fun message => throw ("Failed to search indicators: " ++ message)).

(** The [CallTool] handler: a [switch] on the name inside a catch-all. *)
Definition callTool (request : Request) : M CallToolResult :=
  let name := name request in
  let args := arguments request in
  try_catch
    (if name =? "list_dataflows" then listDataflows
     else if name =? "get_indicators" then
       d <- arg args "dataflow_id" dataflow_id ;;
       getIndicators d
     else if name =? "get_child_poverty_data" then
       c <- arg args "country_code" country_code ;;
       s <- arg args "start_year" start_year ;;
       e <- arg args "end_year" end_year ;;
       getData (VStr "CHLD_PVTY") c VNull s e
     else if name =? "get_child_mortality_data" then
       c <- arg args "country_code" country_code ;;
       s <- arg args "start_year" start_year ;;
       e <- arg args "end_year" end_year ;;
       getData (VStr "CME") c VNull s e
     else if name =? "get_nutrition_data" then
       c <- arg args "country_code" country_code ;;
       s <- arg args "start_year" start_year ;;
       e <- arg args "end_year" end_year ;;
       getData (VStr "NUTRITION") c VNull s e
     else if name =? "get_indicator_for_country" then
       d <- arg args "dataflow_id" dataflow_id ;;
       c <- arg args "country_code" country_code ;;
       i <- arg args "indicator_id" indicator_id ;;
       s <- arg args "start_year" start_year ;;
       e <- arg args "end_year" end_year ;;
       getData d c i s e
     else if name =? "search_indicators" then
       k <- arg args "keyword" keyword ;;
       searchIndicators k
     else throw ("Unknown tool: " ++ name))
    (fun message => ret (text_result ("Error: " ++ message))).

(** One invocation, from an empty request log: the handler's outcome and the
    URLs requested while it ran. *)
Definition dispatch (remote : Http.Remote) (request : Request)
  : outcome CallToolResult * list string :=
  run (callTool request) remote.

End UnicefServer.

(** ** The chart renderer (the page script) *)

Module Charts.

(** A JavaScript value as [JSON.parse] or an object literal of the script
    yields it.  A number is given by the exact value of its double, a
    rational: a literal too small for a double has parsed to 0 and is
    [JNum 0].  The script never computes with numbers. *)
#[warnings="-register-all"]
Inductive json : Type :=
| JNull
| JBool (b : bool)
| JNum (q : Q)
| JStr (s : string)
| JArr (items : list json)
| JObj (props : list (string * json)).

Definition num (n : Z) : json := JNum (inject_Z n).

(** ToBoolean of a parsed value. *)
Definition truthy (v : json) : bool :=
  match v with
  | JNull => false
  | JBool b => b
  | JNum q => negb (Qnum q =? 0)%Z
  | JStr s => negb (s =? EmptyString)
  | JArr _ | JObj _ => true
  end.

Fixpoint lookup (key : string) (props : list (string * json)) : option json :=
  match props with
  | [] => None
  | (k, v) :: rest => if k =? key then Some v else lookup key rest
  end.

(** [v.key] for a value other than [null]: [None] is [undefined].  Only the
    keys [mortality], [nutrition], [poverty], [labels] and [datasets] are ever
    read, and none of them is a built-in property of a primitive or an array. *)
Definition prop (v : json) (key : string) : option json :=
  match v with
  | JObj props => lookup key props
  | _ => None
  end.

Definition truthy_opt (o : option json) : bool :=
  match o with
  | Some v => truthy v
  | None => false
  end.

Record Colors : Type :=
  { primary : string; secondary : string; accent : string;
    unicefBlue : string; worldBankBlue : string; warning : string;
    purple : string }.

Definition colors : Colors :=
  {| primary := "#1a73e8"; secondary := "#34a853"; accent := "#ea4335";
     unicefBlue := "#1cabe2"; worldBankBlue := "#002244";
     warning := "#fbbc04"; purple := "#9334e6" |}.

(** [chart.data]: the two properties the script assigns; [None] is
    [undefined]. *)
Record ChartData : Type :=
  { labels : option json; datasets : option json }.

(** A chart instance: its [type] and its [data].  The [options] literal is
    never read or written after construction and is left out. *)
Record Chart : Type := { type : string; data : ChartData }.

(** The charting library, which is not the script's own.  [update ch] is how
    [ch.update()] ends for a chart of the type and data of [ch]: it returns,
    or it throws, as Chart.js does when the chart has no [datasets].  The
    script is described for every library. *)
Record Library : Type := { update : Chart -> outcome unit }.

(** [x || []] on a property of the data object. *)
Definition or_empty (o : option json) : option json :=
  if truthy_opt o then o else Some (JArr []).

(** [new Chart(ctx, { type, data, options })]: the constructor keeps the data
    object and fills in a missing [labels] or [datasets] with an empty
    array. *)
Definition new_Chart (type : string) (d : ChartData) : Chart :=
  {| type := type;
     data := {| labels := or_empty (labels d);
                datasets := or_empty (datasets d) |} |}.

(** The three module-level chart variables; [None] is [undefined]. *)
Record Page : Type :=
  { mortalityChart : option Chart;
    nutritionChart : option Chart;
    povertyChart : option Chart }.

(** The page: whether [document.getElementById(id)] finds an element. *)
Definition Dom : Type := string -> bool.

(** The exact value of the double written [0.4]. *)
Definition four_tenths : Q := (3602879701896397 # 9007199254740992)%Q.

Definition line_series (label : string) (values : list Z) (color : string)
  : json :=
  JObj [ ("label", JStr label);
         ("data", JArr (map num values));
         ("borderColor", JStr color);
         ("backgroundColor", JStr (color ++ "20"));
         ("fill", JBool true);
         ("tension", JNum four_tenths) ].

Definition mortalityPlaceholder : ChartData :=
  {| labels := Some (JArr (map JStr
       [ "1990"; "1995"; "2000"; "2005"; "2010"; "2015"; "2020" ]));
     datasets := Some (JArr
       [ line_series "Under-5 Mortality Rate"
           [93; 87; 77; 63; 52; 43; 37]%Z (accent colors);
         line_series "Infant Mortality Rate"
           [64; 60; 54; 46; 39; 32; 28]%Z (primary colors);
         line_series "Neonatal Mortality Rate"
           [36; 34; 31; 27; 23; 19; 17]%Z (secondary colors) ]) |}.

Definition bar_series (label : string) (values : list Z) (color : string)
  : json :=
  JObj [ ("label", JStr label);
         ("data", JArr (map num values));
         ("backgroundColor", JStr (color ++ "cc")) ].

Definition nutritionPlaceholder : ChartData :=
  {| labels := Some (JArr (map JStr
       [ "Sub-Saharan Africa"; "South Asia"; "East Asia"; "Latin America";
         "Middle East"; "Europe" ]));
     datasets := Some (JArr
       [ bar_series "Stunting (%)" [33; 31; 8; 11; 15; 5]%Z (accent colors);
         bar_series "Wasting (%)" [6; 14; 2; 1; 7; 1]%Z (warning colors);
         bar_series "Underweight (%)" [18; 27; 4; 4; 9; 2]%Z (purple colors) ]) |}.

Definition point (x y : Z) : json := JObj [ ("x", num x); ("y", num y) ].

(** The scatter placeholder has no [labels] property. *)
Definition povertyPlaceholder : ChartData :=
  {| labels := None;
     datasets := Some (JArr
       [ JObj [ ("label", JStr "GDP per Capita vs Under-5 Mortality");
                ("data", JArr
                   [ point 500 120; point 1000 90; point 2000 60;
                     point 5000 35; point 10000 20; point 20000 10;
                     point 40000 5; point 60000 4 ]);
                ("backgroundColor", JStr (unicefBlue colors ++ "80"));
                ("borderColor", JStr (unicefBlue colors));
                ("pointRadius", num 8) ] ]) |}.

Definition initMortalityChart (dom : Dom) (page : Page) : Page :=
  if dom "mortalityChart"
  then {| mortalityChart := Some (new_Chart "line" mortalityPlaceholder);
          nutritionChart := nutritionChart page;
          povertyChart := povertyChart page |}
  else page.

Definition initNutritionChart (dom : Dom) (page : Page) : Page :=
  if dom "nutritionChart"
  then {| mortalityChart := mortalityChart page;
          nutritionChart := Some (new_Chart "bar" nutritionPlaceholder);
          povertyChart := povertyChart page |}
  else page.

Definition initPovertyChart (dom : Dom) (page : Page) : Page :=
  if dom "povertyChart"
  then {| mortalityChart := mortalityChart page;
          nutritionChart := nutritionChart page;
          povertyChart := Some (new_Chart "scatter" povertyPlaceholder) |}
  else page.

(** A step of the script: it leaves a page, and returns or throws.  What was
    written before a throw stays written. *)
Definition Script : Type := Page -> outcome unit * Page.

Definition skip : Script := fun page => (Return tt, page).

(** [first; second]: a throw in [first] leaves [second] undone. *)
Definition and_then (first second : Script) : Script :=
  fun page =>
    match first page with
    | (Return _, page') => second page'
    | (Throw message, page') => (Throw message, page')
    end.

(** [if (test) { body }]. *)
Definition when (test : bool) (body : Script) : Script :=
  if test then body else skip.

(** [if (mortalityChart && data) { ...labels = data.labels; ...datasets =
    data.datasets; mortalityChart.update() }]: both properties are assigned,
    then the library redraws. *)
Definition updateMortalityChart (lib : Library) (d : option json) : Script :=
  fun page =>
    match mortalityChart page, d with
    | Some chart, Some d =>
        if truthy d
        then let chart := {| type := type chart;
                             data := {| labels := prop d "labels";
                                        datasets := prop d "datasets" |} |} in
             (update lib chart,
              {| mortalityChart := Some chart;
                 nutritionChart := nutritionChart page;
                 povertyChart := povertyChart page |})
        else (Return tt, page)
    | _, _ => (Return tt, page)
    end.

Definition updateNutritionChart (lib : Library) (d : option json) : Script :=
  fun page =>
    match nutritionChart page, d with
    | Some chart, Some d =>
        if truthy d
        then let chart := {| type := type chart;
                             data := {| labels := prop d "labels";
                                        datasets := prop d "datasets" |} |} in
             (update lib chart,
              {| mortalityChart := mortalityChart page;
                 nutritionChart := Some chart;
                 povertyChart := povertyChart page |})
        else (Return tt, page)
    | _, _ => (Return tt, page)
    end.

(** The scatter chart takes only [datasets]; its [labels] are left alone. *)
Definition updatePovertyChart (lib : Library) (d : option json) : Script :=
  fun page =>
    match povertyChart page, d with
    | Some chart, Some d =>
        if truthy d
        then let chart := {| type := type chart;
                             data := {| labels := labels (data chart);
                                        datasets := prop d "datasets" |} |} in
             (update lib chart,
              {| mortalityChart := mortalityChart page;
                 nutritionChart := nutritionChart page;
                 povertyChart := Some chart |})
        else (Return tt, page)
    | _, _ => (Return tt, page)
    end.

(** [updateChartsWithData(data)].  Reading [data.mortality] throws when the
    document is [null]; nothing has been written at that point.  A throw of
    [update()] leaves the later charts as they are. *)
Definition updateChartsWithData (lib : Library) (d : json) : Script :=
  match d with
  | JNull =>
      fun page =>
        (Throw "Cannot read properties of null (reading 'mortality')", page)
  | _ =>
      and_then
        (when (truthy_opt (prop d "mortality"))
              (updateMortalityChart lib (prop d "mortality")))
        (and_then
           (when (truthy_opt (prop d "nutrition"))
                 (updateNutritionChart lib (prop d "nutrition")))
           (when (truthy_opt (prop d "poverty"))
                 (updatePovertyChart lib (prop d "poverty"))))
  end.

(** How [fetch('data/summary.json')] ends: rejected, or a response with its
    [ok] flag and the way [response.json()] ends. *)
Inductive Summary : Type :=
| Rejected (message : string)
| Responded (ok : bool) (json : outcome json).

Definition placeholder_notice : string :=
  "Using placeholder data. Run export script to generate real data.".

(** [loadDataFromJSON()]: the page afterwards and the lines logged.  The
    [catch] takes every throw of the [try], that of [update()] included. *)
Definition loadDataFromJSON (lib : Library) (summary : Summary) (page : Page)
  : Page * list string :=
  match summary with
  | Rejected _ => (page, [placeholder_notice])
  | Responded ok body =>
      if ok then
        match body with
        | Throw _ => (page, [placeholder_notice])
        | Return d =>
            match updateChartsWithData lib d page with
            | (Return _, page') => (page', [])
            | (Throw _, page') => (page', [placeholder_notice])
            end
        end
      else (page, [])
  end.

Definition no_charts : Page :=
  {| mortalityChart := None; nutritionChart := None; povertyChart := None |}.

(** The three [init] calls of the [DOMContentLoaded] listener. *)
Definition initCharts (dom : Dom) : Page :=
  initPovertyChart dom (initNutritionChart dom (initMortalityChart dom no_charts)).

(** The [DOMContentLoaded] listener, once [loadDataFromJSON] has settled. *)
Definition onDOMContentLoaded (lib : Library) (dom : Dom) (summary : Summary)
  : Page * list string :=
  loadDataFromJSON lib summary (initCharts dom).

(** The three charts, by the top-level key of the summary document. *)
Inductive ChartId : Type := Mortality | Nutrition | Poverty.

Definition key (c : ChartId) : string :=
  match c with
  | Mortality => "mortality"
  | Nutrition => "nutrition"
  | Poverty => "poverty"
  end.

Definition anchor (c : ChartId) : string :=
  match c with
  | Mortality => "mortalityChart"
  | Nutrition => "nutritionChart"
  | Poverty => "povertyChart"
  end.

Definition chart (c : ChartId) (page : Page) : option Chart :=
  match c with
  | Mortality => mortalityChart page
  | Nutrition => nutritionChart page
  | Poverty => povertyChart page
  end.

Definition placeholderData (c : ChartId) : ChartData :=
  match c with
  | Mortality => mortalityPlaceholder
  | Nutrition => nutritionPlaceholder
  | Poverty => povertyPlaceholder
  end.

(** The summary does not deliver chart [c]: the fetch failed, the status was
    not a success, the body did not parse, or the document has no key for
    [c]. *)
Definition unavailable (c : ChartId) (summary : Summary) : bool :=
  match summary with
  | Rejected _ => true
  | Responded false _ => true
  | Responded true (Throw _) => true
  | Responded true (Return d) =>
      match prop d (key c) with
      | None => true
      | Some _ => false
      end
  end.

End Charts.

(** ** Vocabulary for the statements *)

(** Reading a URL back: its query parameters. *)
Module Url.

Definition is_char (x : ascii) (c : ascii) : bool := Ascii.eqb c x.

(** The text up to the first ['#'], where the fragment starts. *)
Fixpoint before_fragment (s : string) : string :=
  match s with
  | EmptyString => EmptyString
  | String c rest =>
      if is_char "#" c then EmptyString else String c (before_fragment rest)
  end.

(** The query: the text after the first ['?'], up to the fragment. *)
Fixpoint query (url : string) : option string :=
  match url with
  | EmptyString => None
  | String c rest =>
      if is_char "#" c then None
      else if is_char "?" c then Some (before_fragment rest)
      else query rest
  end.

Fixpoint split (sep : ascii) (s : string) : list string :=
  match s with
  | EmptyString => [EmptyString]
  | String c rest =>
      if is_char sep c then EmptyString :: split sep rest
      else match split sep rest with
           | [] => [String c EmptyString]
           | x :: xs => String c x :: xs
           end
  end.

(** The query parameters, each as its [name=value] text, in order. *)
Definition params (url : string) : list string :=
  match query url with
  | Some q => split "&" q
  | None => []
  end.

(** [s] has no occurrence of the character [x]. *)
Definition free (x : ascii) (s : string) : bool :=
  JS.all_chars (fun c => negb (is_char x c)) s.

(** A text that can sit in a URL without opening a query, a fragment or a
    new parameter. *)
Definition plain (s : string) : bool :=
  JS.all_chars (fun c => negb (is_char "?" c || is_char "#" c || is_char "&" c)) s.

End Url.

Module Claims.

Import JS UnicefServer.

(** The path of the data URL, up to the query. *)
Definition dataPath (dataflowId countryCode indicatorId : value) : string :=
  UNICEF_API_BASE ++ "/data/UNICEF," ++ to_string dataflowId ++ ",1.0/"
  ++ dataKey countryCode indicatorId.

(** The parameter text [getData] appends for a period bound. *)
Definition period (parameter : string) (year : value) : list string :=
  if truthy year then [parameter ++ "=" ++ to_string year] else [].

(** The four data-retrieval operations, with the dataflow, country and
    indicator each passes to [getData]. *)
Definition retrieval_call (name : string) (a : Arguments)
  : option (value * value * value) :=
  if name =? "get_child_poverty_data"
  then Some (VStr "CHLD_PVTY", country_code a, VNull)
  else if name =? "get_child_mortality_data"
  then Some (VStr "CME", country_code a, VNull)
  else if name =? "get_nutrition_data"
  then Some (VStr "NUTRITION", country_code a, VNull)
  else if name =? "get_indicator_for_country"
  then Some (dataflow_id a, country_code a, indicator_id a)
  else None.

(** The first property read from [arguments] by a data-retrieval operation. *)
Definition first_argument (name : string) : string :=
  if name =? "get_indicator_for_country" then "dataflow_id" else "country_code".

(** The payload [getData] produces once the remote has answered [url]. *)
Definition retrieval_payload (answer : outcome Http.Response)
    (dataflowId countryCode : value) : string :=
  match answer with
  | Throw message => "Error: Failed to fetch data: " ++ message
  | Return response =>
      if all_chars is_space (Http.text response)
      then "No data found for " ++ to_string countryCode
           ++ " in " ++ to_string dataflowId
      else Http.text response
  end.

(** The arguments of the generic operation that a fixed-dataflow wrapper
    stands for: the dataflow is set, no indicator is passed. *)
Definition generic_arguments (dataflow : string) (a : Arguments) : Arguments :=
  {| dataflow_id := VStr dataflow;
     country_code := country_code a;
     indicator_id := VUndefined;
     start_year := start_year a;
     end_year := end_year a;
     keyword := keyword a |}.

(** The label of a code: [names.en], else [name]; none reads as empty. *)
Definition label (code : Sdmx.Code.t) : string :=
  or_else (or_opt (Sdmx.names_en (Sdmx.Code.names code)) (Sdmx.Code.name code))
          EmptyString.

Definition identifier (code : Sdmx.Code.t) : string :=
  or_else (Sdmx.Code.id code) EmptyString.

(** [text] contains [keyword], letter case ignored. *)
Definition contains_ci (keyword text : string) : bool :=
  includes (toLowerCase keyword) (toLowerCase text).

(** The search criterion in the specification's words: the identifier or the
    label contains the keyword case-insensitively. *)
Definition keyword_hit (keyword : string) (code : Sdmx.Code.t) : bool :=
  contains_ci keyword (identifier code) || contains_ci keyword (label code).

(** The codes of a code list; none when the list has no [codes]. *)
Definition codes_of (cl : Sdmx.Codelist.t) : list Sdmx.Code.t :=
  match Sdmx.Codelist.codes cl with
  | Some codes => codes
  | None => []
  end.

(** The [{id, name}] pair announced for a code. *)
Definition id_label_pair (code : Sdmx.Code.t) : Json.object :=
  [ ("id", Sdmx.Code.id code);
    ("name", Some (or_else (or_opt (Sdmx.names_en (Sdmx.Code.names code))
                                   (Sdmx.Code.name code)) "Unknown")) ].

(** A remote that answers every request with the same response. *)
Definition always (response : Http.Response) : Http.Remote :=
  fun _ => Return response.

Definition csv_response (body : string) : Http.Response :=
  {| Http.text := body; Http.json := Throw "Unexpected token" |}.

Definition metadata_response (codelists : list Sdmx.Codelist.t)
  : Http.Response :=
  {| Http.text := EmptyString;
     Http.json :=
       Return {| Sdmx.data :=
                   Some {| Sdmx.dataflows := None;
                           Sdmx.codelists := Some codelists |} |} |}.

Definition no_arguments : Arguments :=
  {| dataflow_id := VUndefined; country_code := VUndefined;
     indicator_id := VUndefined; start_year := VUndefined;
     end_year := VUndefined; keyword := VUndefined |}.

End Claims.

(** Sample metadata, shaped like the service's code lists. *)
Module Samples.

Import JS UnicefServer.

Definition code (id label : string) : Sdmx.Code.t :=
  {| Sdmx.Code.id := Some id;
     Sdmx.Code.names := Some {| Sdmx.en := Some label |};
     Sdmx.Code.name := None |}.

Definition area_list : Sdmx.Codelist.t :=
  {| Sdmx.Codelist.id := Some "CL_AREA"; Sdmx.Codelist.codes := None |}.

Definition age_list : Sdmx.Codelist.t :=
  {| Sdmx.Codelist.id := Some "CL_AGE"; Sdmx.Codelist.codes := None |}.

Definition mortality_code : Sdmx.Code.t :=
  code "CME_MRY0" "Under-five mortality rate".

Definition poverty_code : Sdmx.Code.t :=
  code "PT_CHLD_Y0-17_MDP" "Children in multidimensional Poverty (%)".

Definition indicator_list : Sdmx.Codelist.t :=
  {| Sdmx.Codelist.id := Some "CL_UNICEF_INDICATOR";
     Sdmx.Codelist.codes := Some [mortality_code; poverty_code] |}.

Definition with_dataflow (dataflow : string) : Arguments :=
  {| dataflow_id := VStr dataflow; country_code := VUndefined;
     indicator_id := VUndefined; start_year := VUndefined;
     end_year := VUndefined; keyword := VUndefined |}.

(** A country with the years from [first] to [last]. *)
Definition between (country : string) (first last : Z) : Arguments :=
  {| dataflow_id := VUndefined; country_code := VStr country;
     indicator_id := VUndefined; start_year := VNum first;
     end_year := VNum last; keyword := VUndefined |}.

(** A country with the years from 0 up to [last]. *)
Definition from_zero (country : string) (last : Z) : Arguments :=
  {| dataflow_id := VUndefined; country_code := VStr country;
     indicator_id := VUndefined; start_year := VNum 0;
     end_year := VNum last; keyword := VUndefined |}.

Definition with_keyword (kw : string) : Arguments :=
  {| dataflow_id := VUndefined; country_code := VUndefined;
     indicator_id := VUndefined; start_year := VUndefined;
     end_year := VUndefined; keyword := VStr kw |}.

End Samples.

(** ** Vocabulary for the behaviour of whole operations *)

Module Behaviour.

Import JS UnicefServer.

(** The URL [listDataflows] requests. *)
Definition discoveryUrl : string :=
  UNICEF_API_BASE
  ++ "/dataflow/all/all/latest/?format=sdmx-json&detail=allstubs".

(** The requests an invocation issues, read off the request alone. *)
Definition requested (request : Request) : list string :=
  let name := name request in
  if name =? "list_dataflows" then [discoveryUrl]
  else match arguments request with
       | None => []
       | Some a =>
           if name =? "get_indicators"
           then [metadataUrl (to_string (dataflow_id a))]
           else if name =? "search_indicators"
           then [metadataUrl "GLOBAL_DATAFLOW"]
           else match Claims.retrieval_call name a with
                | Some (d, c, i) => [dataUrl d c i (start_year a) (end_year a)]
                | None => []
                end
       end.

(** The three operations that read a JSON document, with the URL each
    requests and the words its [catch] puts before a failure. *)
Definition document_call (name : string) (args : option Arguments)
  : option (string * string) :=
  if name =? "list_dataflows"
  then Some (discoveryUrl, "Failed to fetch dataflows: ")
  else match args with
       | None => None
       | Some a =>
           if name =? "get_indicators"
           then Some (metadataUrl (to_string (dataflow_id a)),
                      "Failed to fetch indicators: ")
           else if name =? "search_indicators"
           then Some (metadataUrl "GLOBAL_DATAFLOW",
                      "Failed to search indicators: ")
           else None
       end.

(** The message with which reading a document from an answer fails: the
    rejection of [fetch], or the error of [response.json()]. *)
Definition document_failure (answer : outcome Http.Response) : option string :=
  match answer with
  | Throw message => Some message
  | Return response =>
      match Http.json response with
      | Throw message => Some message
      | Return _ => None
      end
  end.

(** The properties of [arguments] an operation reads. *)
Definition reads (name : string) (a : Arguments) : list value :=
  if name =? "get_indicators" then [dataflow_id a]
  else if (name =? "get_child_poverty_data")
          || (name =? "get_child_mortality_data")
          || (name =? "get_nutrition_data")
  then [country_code a; start_year a; end_year a]
  else if name =? "get_indicator_for_country"
  then [dataflow_id a; country_code a; indicator_id a; start_year a; end_year a]
  else if name =? "search_indicators" then [keyword a]
  else [].

(** The [{id, name, agency}] record announced for a dataflow. *)
Definition dataflow_record (df : Sdmx.Dataflow.t) : Json.object :=
  [ ("id", Sdmx.Dataflow.id df);
    ("name", Some (display_name (Sdmx.Dataflow.names df) (Sdmx.Dataflow.name df)));
    ("agency", Sdmx.Dataflow.agencyID df) ].

(** A keyword that is a text. *)
Definition is_text (v : value) : bool :=
  match v with
  | VStr _ => true
  | _ => false
  end.

(** The value of a property in an object literal. *)
Fixpoint property (key : string) (o : Json.object) : option string :=
  match o with
  | [] => None
  | (k, v) :: rest => if k =? key then v else property key rest
  end.

End Behaviour.

(** ** Vocabulary for the page *)

Module PageBehaviour.

Import Charts.

Definition chart_type (c : ChartId) : string :=
  match c with
  | Mortality => "line"
  | Nutrition => "bar"
  | Poverty => "scatter"
  end.

(** The chart that initialisation installs for [c]. *)
Definition installed (c : ChartId) : Chart :=
  new_Chart (chart_type c) (placeholderData c).

(** The chart that the update for [c] leaves when it writes [v] into the
    chart [ch]. *)
Definition written (c : ChartId) (v : json) (ch : Chart) : Chart :=
  {| type := type ch;
     data := {| labels := match c with
                          | Poverty => labels (data ch)
                          | _ => prop v "labels"
                          end;
                datasets := prop v "datasets" |} |}.

(** What a chart shows once the summary delivered the truthy value [v] for
    it: the line and bar charts take both properties from [v], the scatter
    chart its [datasets] only. *)
Definition live_data (c : ChartId) (v : json) : ChartData :=
  data (written c v (installed c)).

Definition returns {A : Type} (o : outcome A) : bool :=
  match o with
  | Return _ => true
  | Throw _ => false
  end.

(** How the update of chart [c] ends if it is reached: [update()] is called
    on the written chart when the chart exists and the document holds a
    truthy value for it, and nothing is done otherwise. *)
Definition update_ending (lib : Library) (d : json) (page : Page) (c : ChartId)
  : outcome unit :=
  match chart c page, prop d (key c) with
  | Some ch, Some v => if truthy v then update lib (written c v ch) else Return tt
  | _, _ => Return tt
  end.

(** The update function of chart [c]. *)
Definition update_chart (lib : Library) (c : ChartId) : option json -> Script :=
  match c with
  | Mortality => updateMortalityChart lib
  | Nutrition => updateNutritionChart lib
  | Poverty => updatePovertyChart lib
  end.

(** The statement [if (data.key) { updateChart(data.key) }] for chart [c]. *)
Definition step (lib : Library) (d : json) (c : ChartId) : Script :=
  when (truthy_opt (prop d (key c))) (update_chart lib c (prop d (key c))).

(** The charts updated before [c], in the order of the script. *)
Definition earlier (c : ChartId) : list ChartId :=
  match c with
  | Mortality => []
  | Nutrition => [Mortality]
  | Poverty => [Mortality; Nutrition]
  end.

(** The update of [c] is reached: no earlier update throws. *)
Definition reached (lib : Library) (d : json) (page : Page) (c : ChartId)
  : bool :=
  forallb (fun c' => returns (update_ending lib d page c')) (earlier c).

(** The loads on which [loadDataFromJSON] logs its notice: a rejected
    fetch, a body that does not parse, the document [null], or an update
    that throws. *)
Definition noticed (lib : Library) (summary : Summary) (page : Page) : bool :=
  match summary with
  | Rejected _ => true
  | Responded false _ => false
  | Responded true (Throw _) => true
  | Responded true (Return JNull) => true
  | Responded true (Return d) =>
      negb (forallb (fun c => returns (update_ending lib d page c))
                    [Mortality; Nutrition; Poverty])
  end.

(** The loads that leave the page as it was without reaching an update. *)
Definition not_loaded (summary : Summary) : bool :=
  match summary with
  | Rejected _ => true
  | Responded false _ => true
  | Responded true (Throw _) => true
  | Responded true (Return JNull) => true
  | Responded true (Return _) => false
  end.

(** [formatNumber(num)] for an integer [num].  [toFixed1 q] stands for
    [x.toFixed(1)] at the number [x] that the division yielding [q]
    produces; an integer prints as [JS.decimal] when it is a safe one. *)
Definition formatNumber (toFixed1 : Q -> string) (num : Z) : string :=
  if (1000000000 <=? num)%Z then toFixed1 (num # 1000000000)%Q ++ "B"
  else if (1000000 <=? num)%Z then toFixed1 (num # 1000000)%Q ++ "M"
  else if (1000 <=? num)%Z then toFixed1 (num # 1000)%Q ++ "K"
  else JS.decimal num.

End PageBehaviour.

(** More sample requests and answers. *)
Module MoreSamples.

Import JS UnicefServer.

(** A remote that rejects every request. *)
Definition unreachable : Http.Remote := fun _ => Throw "fetch failed".

Definition mortality_flow : Sdmx.Dataflow.t :=
  {| Sdmx.Dataflow.id := Some "CME";
     Sdmx.Dataflow.names := None;
     Sdmx.Dataflow.name := Some "Child Mortality Estimates";
     Sdmx.Dataflow.agencyID := Some "UNICEF" |}.

Definition unnamed_flow : Sdmx.Dataflow.t :=
  {| Sdmx.Dataflow.id := Some "X";
     Sdmx.Dataflow.names := Some {| Sdmx.en := Some EmptyString |};
     Sdmx.Dataflow.name := None;
     Sdmx.Dataflow.agencyID := None |}.

Definition dataflows_response (flows : list Sdmx.Dataflow.t) : Http.Response :=
  {| Http.text := EmptyString;
     Http.json :=
       Return {| Sdmx.data :=
                   Some {| Sdmx.dataflows := Some flows;
                           Sdmx.codelists := None |} |} |}.

(** An answer whose document has no [data] section. *)
Definition bare_response : Http.Response :=
  {| Http.text := EmptyString;
     Http.json := Return {| Sdmx.data := None |} |}.

Definition for_country (dataflow : value) (country : string) : Arguments :=
  {| dataflow_id := dataflow; country_code := VStr country;
     indicator_id := VUndefined; start_year := VUndefined;
     end_year := VUndefined; keyword := VUndefined |}.

(** A document that delivers the mortality series only. *)
Definition mortality_only : Charts.json :=
  Charts.JObj
    [ ("mortality",
       Charts.JObj [ ("labels", Charts.JArr [Charts.JStr "2021"]);
                     ("datasets", Charts.JArr []) ]);
      ("nutrition", Charts.JNull) ].

(** A document whose mortality value has no [datasets]. *)
Definition mortality_without_datasets : Charts.json :=
  Charts.JObj
    [ ("mortality", Charts.JObj [ ("labels", Charts.JArr []) ]);
      ("nutrition",
       Charts.JObj [ ("labels", Charts.JArr [Charts.JStr "Asia"]);
                     ("datasets", Charts.JArr []) ]) ].

(** A library whose [update()] always returns. *)
Definition lenient : Charts.Library :=
  {| Charts.update := fun _ => Return tt |}.

(** A library whose [update()] throws on a chart without [datasets]. *)
Definition strict : Charts.Library :=
  {| Charts.update := fun ch =>
       match Charts.datasets (Charts.data ch) with
       | Some _ => Return tt
       | None => Throw "Cannot read properties of undefined (reading 'length')"
       end |}.

End MoreSamples.

(** * Properties *)

(** ** Strings *)

Section StringFacts.

Import JS.

Lemma append_assoc (a b c : string) : (a ++ b) ++ c = a ++ b ++ c.
Proof.
  induction a as [|x a IH]; simpl; [reflexivity|].
  now rewrite IH.
Qed.

Lemma append_empty_r (a : string) : a ++ EmptyString = a.
Proof.
  induction a as [|x a IH]; simpl; [reflexivity|].
  now rewrite IH.
Qed.

Lemma startsWith_cons (x y : ascii) (n h : string) :
  startsWith (String x n) (String y h) = Ascii.eqb x y && startsWith n h.
Proof.
  unfold startsWith; simpl.
  destruct (ascii_dec x y) as [->|Hne].
  - now rewrite Ascii.eqb_refl.
  - apply Ascii.eqb_neq in Hne. now rewrite Hne.
Qed.

Lemma startsWith_empty (h : string) : startsWith EmptyString h = true.
Proof. now destruct h. Qed.

Lemma startsWith_append (n rest : string) : startsWith n (n ++ rest) = true.
Proof.
  induction n as [|x n IH]; cbn [append].
  - apply startsWith_empty.
  - now rewrite startsWith_cons, Ascii.eqb_refl.
Qed.

Lemma startsWith_self (s : string) : startsWith s s = true.
Proof.
  rewrite <- (append_empty_r s) at 2. apply startsWith_append.
Qed.

(** A prefix of a prefix is a prefix. *)
Lemma startsWith_shorten (a b : string) :
  forall h, startsWith (a ++ b) h = true -> startsWith a h = true.
Proof.
  induction a as [|x a IH]; intros h H; cbn [append] in *.
  - apply startsWith_empty.
  - destruct h as [|y h]; [now destruct a|].
    rewrite startsWith_cons in *.
    apply andb_true_iff in H as [Hxy Hrest].
    now rewrite Hxy, (IH _ Hrest).
Qed.

Lemma startsWith_extend (n a b : string) :
  startsWith n a = true -> startsWith n (a ++ b) = true.
Proof.
  revert a; induction n as [|x n IH]; intros a H.
  - apply startsWith_empty.
  - destruct a as [|y a]; [discriminate H|]; cbn [append].
    rewrite startsWith_cons in *.
    apply andb_true_iff in H as [Hxy Hrest].
    now rewrite Hxy, (IH _ Hrest).
Qed.

Lemma includes_cons (n : string) (c : ascii) (h : string) :
  includes n (String c h) = startsWith n (String c h) || includes n h.
Proof. reflexivity. Qed.

Lemma includes_start (n h : string) :
  startsWith n h = true -> includes n h = true.
Proof.
  intros H; destruct h; cbn [includes]; now rewrite H.
Qed.

Lemma includes_self (s : string) : includes s s = true.
Proof.
  apply includes_start.
  rewrite <- (append_empty_r s) at 2.
  apply startsWith_append.
Qed.

Lemma includes_append_r (n a b : string) :
  includes n b = true -> includes n (a ++ b) = true.
Proof.
  intros H; induction a as [|x a IH]; cbn [append includes]; [exact H|].
  rewrite IH. apply orb_true_r.
Qed.

Lemma includes_append_l (n a b : string) :
  includes n a = true -> includes n (a ++ b) = true.
Proof.
  induction a as [|x a IH]; intros H.
  - destruct n; [destruct b; reflexivity | discriminate H].
  - cbn [append]. rewrite includes_cons in *.
    apply orb_true_iff in H as [H|H]; apply orb_true_iff.
    + left. now apply (startsWith_extend n (String x a) b).
    + right. now apply IH.
Qed.

(** Whatever contains a text contains each of its prefixes. *)
Lemma includes_shorten (a b h : string) :
  includes (a ++ b) h = true -> includes a h = true.
Proof.
  induction h as [|x h IH]; cbn [includes]; intros H;
    apply orb_true_iff in H as [H|H].
  - apply startsWith_shorten in H. now rewrite H.
  - discriminate H.
  - apply startsWith_shorten in H. now rewrite H.
  - rewrite (IH H). apply orb_true_r.
Qed.

Lemma includes_join (sep s : string) (xs : list string) :
  In s xs -> includes s (join sep xs) = true.
Proof.
  induction xs as [|x xs IH]; intros Hin; [contradiction|].
  destruct xs as [|y ys].
  - destruct Hin as [->|[]]. apply includes_self.
  - change (join sep (x :: y :: ys)) with (x ++ sep ++ join sep (y :: ys)).
    destruct Hin as [->|Hin].
    + apply includes_append_l, includes_self.
    + apply includes_append_r, includes_append_r, IH, Hin.
Qed.

Lemma trimStart_blank (s : string) :
  all_chars is_space s = true -> trimStart s = EmptyString.
Proof.
  induction s as [|c s IH]; simpl; [reflexivity|].
  intros H; apply andb_true_iff in H as [Hc Hs].
  now rewrite Hc, IH.
Qed.

Lemma trim_blank (s : string) :
  all_chars is_space s = true -> trim s = EmptyString.
Proof.
  intros H; unfold trim. now rewrite trimStart_blank.
Qed.

Lemma trimStart_head (s : string) :
  all_chars is_space s = false ->
  exists c rest, trimStart s = String c rest /\ is_space c = false.
Proof.
  induction s as [|c s IH]; simpl; [discriminate|].
  destruct (is_space c) eqn:Hc; simpl; intros H.
  - exact (IH H).
  - now exists c, s.
Qed.

Lemma trimEnd_head (c : ascii) (rest : string) :
  is_space c = false -> trimEnd (String c rest) <> EmptyString.
Proof.
  intros Hc; simpl. rewrite Hc.
  destruct (trimEnd rest); discriminate.
Qed.

(** The test [!csvText || csvText.trim() === ""] holds exactly for the texts
    made of white space only, the empty one included. *)
Lemma blank_test (s : string) :
  (s =? EmptyString) || (trim s =? EmptyString) = all_chars is_space s.
Proof.
  destruct (all_chars is_space s) eqn:H.
  - rewrite (trim_blank s H). apply orb_true_r.
  - destruct (trimStart_head s H) as (c & rest & Hs & Hc).
    unfold trim; rewrite Hs.
    apply orb_false_iff; split; apply String.eqb_neq.
    + intros ->. discriminate H.
    + now apply trimEnd_head.
Qed.

End StringFacts.

(** ** Dispatch *)

(** Opens the handler on a request whose name is known, down to the first
    awaited call. *)
Ltac step_handler :=
  unfold UnicefServer.dispatch, run, UnicefServer.callTool, try_catch, bind,
    UnicefServer.arg, ret;
  cbn [UnicefServer.name UnicefServer.arguments String.eqb Ascii.eqb Bool.eqb].

Ltac step_body :=
  unfold try_catch, bind, fetch, await, ret, throw; cbn [app].

Section Dispatch.

Import JS UnicefServer Claims.

Variable remote : Http.Remote.

Lemma find_first {A : Type} (p : A -> bool) (before after : list A) (x : A) :
  (forall y, In y before -> p y = false) -> p x = true ->
  find p (before ++ x :: after)%list = Some x.
Proof.
  intros Hbefore Hx; unfold find.
  induction before as [|y before IH]; simpl.
  - now rewrite Hx.
  - rewrite (Hbefore y (or_introl eq_refl)).
    apply IH. intros z Hz. apply Hbefore. now right.
Qed.

Lemma find_none {A : Type} (p : A -> bool) (xs : list A) :
  (forall y, In y xs -> p y = false) -> find p xs = None.
Proof.
  intros H; unfold find.
  induction xs as [|y xs IH]; simpl; [reflexivity|].
  rewrite (H y (or_introl eq_refl)).
  apply IH. intros z Hz. apply H. now right.
Qed.

(** What a data-retrieval operation does when it is given an [arguments]
    object: one request, to the URL built from the arguments, and a payload
    decided by the answer. *)
Lemma dispatch_retrieval (name : string) (a : Arguments) (d c i : value) :
  retrieval_call name a = Some (d, c, i) ->
  dispatch remote {| name := name; arguments := Some a |}
  = (Return (text_result
       (retrieval_payload
          (remote (dataUrl d c i (start_year a) (end_year a))) d c)),
     [dataUrl d c i (start_year a) (end_year a)]).
Proof.
  unfold retrieval_call.
  destruct (name =? "get_child_poverty_data") eqn:E1;
    [| destruct (name =? "get_child_mortality_data") eqn:E2;
       [| destruct (name =? "get_nutrition_data") eqn:E3;
          [| destruct (name =? "get_indicator_for_country") eqn:E4;
             [| discriminate ] ] ] ];
    intros H; injection H as <- <- <-;
    match goal with
    | E : (name =? _) = true |- _ => apply String.eqb_eq in E; subst name
    end;
    step_handler; unfold getData, retrieval_payload; step_body;
    (destruct (remote _) as [response|message]; [|reflexivity]);
    rewrite blank_test;
    now destruct (all_chars is_space (Http.text response)).
Qed.

(** Without an [arguments] object the first property read throws, before any
    request is built. *)
Lemma dispatch_retrieval_no_arguments (name : string) :
  (exists a, retrieval_call name a <> None) ->
  dispatch remote {| name := name; arguments := None |}
  = (Return (text_result
       ("Error: Cannot read properties of undefined (reading '"
        ++ first_argument name ++ "')")), []).
Proof.
  intros [a Ha]; unfold retrieval_call in Ha.
  destruct (name =? "get_child_poverty_data") eqn:E1;
    [| destruct (name =? "get_child_mortality_data") eqn:E2;
       [| destruct (name =? "get_nutrition_data") eqn:E3;
          [| destruct (name =? "get_indicator_for_country") eqn:E4;
             [| now contradiction Ha ] ] ] ];
    match goal with
    | E : (name =? _) = true |- _ => apply String.eqb_eq in E; subst name
    end;
    reflexivity.
Qed.

(** The catch-all of the handler turns every thrown error into a payload:
    whatever the request and the remote, the handler ends with [Return]. *)
Lemma callTool_never_throws (request : Request) (log : list string) :
  exists result log',
    callTool request remote log = (Return result, log').
Proof.
  unfold callTool, try_catch.
  match goal with
  | |- context [match ?body remote log with _ => _ end] =>
      destruct (body remote log) as [[result|message] log']
  end.
  - now exists result, log'.
  - now eexists _, log'.
Qed.

Lemma unregistered (name : string) :
  registered name = false ->
  (name =? "list_dataflows") = false
  /\ (name =? "get_indicators") = false
  /\ (name =? "get_child_poverty_data") = false
  /\ (name =? "get_child_mortality_data") = false
  /\ (name =? "get_nutrition_data") = false
  /\ (name =? "get_indicator_for_country") = false
  /\ (name =? "search_indicators") = false.
Proof.
  unfold registered, tools; cbn [existsb]; intros H.
  repeat (apply orb_false_iff in H as [? H]).
  repeat split; assumption.
Qed.

End Dispatch.

(** ** Reading the data URL back *)

Section UrlFacts.

Import JS UnicefServer.

Import Url Claims.

Lemma all_chars_append (p : ascii -> bool) (a b : string) :
  all_chars p (a ++ b) = all_chars p a && all_chars p b.
Proof.
  induction a as [|x a IH]; simpl; [reflexivity|].
  now rewrite IH, andb_assoc.
Qed.

Lemma free_append (x : ascii) (a b : string) :
  free x (a ++ b) = free x a && free x b.
Proof. apply all_chars_append. Qed.

Lemma all_chars_weaken (p q : ascii -> bool) (s : string) :
  (forall c, p c = true -> q c = true) ->
  all_chars p s = true -> all_chars q s = true.
Proof.
  intros Hpq; induction s as [|x s IH]; simpl; [reflexivity|].
  intros H; apply andb_true_iff in H as [Hx Hs].
  now rewrite (Hpq x Hx), (IH Hs).
Qed.

Lemma plain_free (s : string) :
  Url.plain s = true ->
  free "?" s = true /\ free "#" s = true /\ free "&" s = true.
Proof.
  intros H; unfold free; repeat split;
    (eapply all_chars_weaken; [|exact H]);
    intros c Hc; apply negb_true_iff in Hc;
    apply orb_false_iff in Hc as [Hc Hamp];
    apply orb_false_iff in Hc as [Hq Hh];
    apply negb_true_iff; assumption.
Qed.

Lemma before_fragment_free (s : string) :
  free "#" s = true -> Url.before_fragment s = s.
Proof.
  induction s as [|x s IH]; simpl; [reflexivity|].
  intros H; apply andb_true_iff in H as [Hx Hs].
  apply negb_true_iff in Hx. now rewrite Hx, (IH Hs).
Qed.

Lemma query_after_path (path rest : string) :
  free "?" path = true -> free "#" path = true ->
  Url.query (path ++ String "?" rest) = Some (Url.before_fragment rest).
Proof.
  induction path as [|x path IH]; simpl; [reflexivity|].
  intros Hq Hh.
  apply andb_true_iff in Hq as [Hxq Hq].
  apply andb_true_iff in Hh as [Hxh Hh].
  apply negb_true_iff in Hxq, Hxh.
  now rewrite Hxq, Hxh, (IH Hq Hh).
Qed.

Lemma split_free (sep : ascii) (s : string) :
  free sep s = true -> Url.split sep s = [s].
Proof.
  induction s as [|x s IH]; simpl; [reflexivity|].
  intros H; apply andb_true_iff in H as [Hx Hs].
  apply negb_true_iff in Hx. now rewrite Hx, (IH Hs).
Qed.

Lemma split_append (sep : ascii) (a b : string) :
  free sep a = true ->
  Url.split sep (a ++ String sep b) = a :: Url.split sep b.
Proof.
  induction a as [|x a IH]; simpl.
  - intros _. unfold Url.is_char. now rewrite Ascii.eqb_refl.
  - intros H; apply andb_true_iff in H as [Hx Ha].
    apply negb_true_iff in Hx. now rewrite Hx, (IH Ha).
Qed.

(** The decimal text of an integer is plain. *)
Lemma plain_decimal (n : Z) : Url.plain (decimal n) = true.
Proof.
  assert (Hd : forall d, Url.plain (NilEmpty.string_of_uint d) = true)
    by (induction d; simpl; auto).
  assert (Hz : forall d, Url.plain (NilZero.string_of_uint d) = true)
    by (intros d; destruct d; try reflexivity; apply (Hd (_ d))).
  unfold decimal, NilZero.string_of_int.
  destruct (Z.to_int n) as [d|d]; [apply Hz|].
  change (Url.plain (String "-" (NilZero.string_of_uint d)))
    with (true && Url.plain (NilZero.string_of_uint d)).
  now rewrite Hz.
Qed.

Lemma dataUrl_query (d c i s e : value) :
  dataUrl d c i s e
  = dataPath d c i
    ++ String "?"
         ("format=csv"
          ++ (if truthy s then "&startPeriod=" ++ to_string s else EmptyString)
          ++ (if truthy e then "&endPeriod=" ++ to_string e else EmptyString)).
Proof.
  unfold dataUrl, dataPath.
  destruct (truthy s), (truthy e);
    repeat rewrite append_assoc; cbn [append];
    repeat rewrite append_empty_r; reflexivity.
Qed.

Lemma dataPath_free (d c i : value) :
  Url.plain (to_string d) = true -> Url.plain (to_string c) = true ->
  Url.plain (to_string i) = true ->
  free "?" (dataPath d c i) = true /\ free "#" (dataPath d c i) = true.
Proof.
  intros Hd Hc Hi.
  apply plain_free in Hd as (Hd1 & Hd2 & _).
  apply plain_free in Hc as (Hc1 & Hc2 & _).
  apply plain_free in Hi as (Hi1 & Hi2 & _).
  unfold dataPath, dataKey, free in *.
  destruct (truthy i);
    repeat rewrite all_chars_append;
    rewrite ?Hd1, ?Hd2, ?Hc1, ?Hc2, ?Hi1, ?Hi2; split; reflexivity.
Qed.

(** The parameters of the data URL: the format, then a bound for each year
    that passed its truthiness test. *)
Lemma dataUrl_params (d c i s e : value) :
  Url.plain (to_string d) = true -> Url.plain (to_string c) = true ->
  Url.plain (to_string i) = true -> Url.plain (to_string s) = true ->
  Url.plain (to_string e) = true ->
  Url.params (dataUrl d c i s e)
  = ("format=csv" :: period "startPeriod" s ++ period "endPeriod" e)%list.
Proof.
  intros Hd Hc Hi Hs He.
  destruct (dataPath_free d c i Hd Hc Hi) as [Hq Hh].
  apply plain_free in Hs as (_ & Hs2 & Hs3).
  apply plain_free in He as (_ & He2 & He3).
  unfold Url.params. rewrite dataUrl_query, (query_after_path _ _ Hq Hh).
  unfold period.
  destruct (truthy s), (truthy e).
  - rewrite before_fragment_free by (now rewrite !free_append, Hs2, He2).
    change ("format=csv" ++ ("&startPeriod=" ++ to_string s)
            ++ "&endPeriod=" ++ to_string e)
      with ("format=csv" ++ String "&" (("startPeriod=" ++ to_string s)
            ++ String "&" ("endPeriod=" ++ to_string e))).
    rewrite split_append by reflexivity.
    rewrite split_append by (now rewrite free_append, Hs3).
    rewrite split_free by (now rewrite free_append, He3).
    reflexivity.
  - rewrite append_empty_r.
    rewrite before_fragment_free by (now rewrite !free_append, Hs2).
    change ("format=csv" ++ "&startPeriod=" ++ to_string s)
      with ("format=csv" ++ String "&" ("startPeriod=" ++ to_string s)).
    rewrite split_append by reflexivity.
    rewrite split_free by (now rewrite free_append, Hs3).
    reflexivity.
  - rewrite before_fragment_free by (now rewrite !free_append, He2).
    change ("format=csv" ++ EmptyString ++ "&endPeriod=" ++ to_string e)
      with ("format=csv" ++ String "&" ("endPeriod=" ++ to_string e)).
    rewrite split_append by reflexivity.
    rewrite split_free by (now rewrite free_append, He3).
    reflexivity.
  - reflexivity.
Qed.

End UrlFacts.

(** ** The adapter's claims *)

Section AdapterClaims.

Import JS UnicefServer Claims Samples.

(** C1.  An operation name outside the seven registered ones makes dispatch
    return an ordinary text payload, [Error: Unknown tool: <name>], which
    contains the submitted name; the handler ends with [Return], not [Throw],
    and no request is issued. *)
Theorem unknown_tool_reported (remote : Http.Remote) (name : string)
    (args : option Arguments) :
  registered name = false ->
  dispatch remote {| name := name; arguments := args |}
  = (Return (text_result ("Error: Unknown tool: " ++ name)), [])
  /\ includes name ("Error: Unknown tool: " ++ name) = true.
Proof.
  intros H.
  destruct (unregistered name H) as (H1 & H2 & H3 & H4 & H5 & H6 & H7).
  split.
  - unfold dispatch, run, callTool, try_catch.
    cbn [UnicefServer.name arguments].
    now rewrite H1, H2, H3, H4, H5, H6, H7.
  - apply includes_append_r, includes_self.
Qed.

Lemma unknown_tool_reported_witness :
  registered "drop_tables" = false
  /\ dispatch (always (csv_response "x"))
       {| name := "drop_tables"; arguments := None |}
     = (Return (text_result "Error: Unknown tool: drop_tables"), []).
Proof.
  split; [reflexivity|].
  exact (proj1 (unknown_tool_reported (always (csv_response "x"))
                  "drop_tables" None eq_refl)).
Defined.

(** C10.  The selection test of [getIndicators] and [searchIndicators],
    [id] contains "INDICATOR" or [id] contains "IND", is the same test as
    [id] contains "IND": the first disjunct never decides. *)
Theorem indicator_disjunct_redundant (cl : Sdmx.Codelist.t) :
  is_indicator_codelist cl = opt_includes "IND" (Sdmx.Codelist.id cl).
Proof.
  unfold is_indicator_codelist.
  destruct (Sdmx.Codelist.id cl) as [s|]; [|reflexivity].
  unfold opt_includes.
  destruct (includes "INDICATOR" s) eqn:H; [|reflexivity].
  symmetry. exact (includes_shorten "IND" "ICATOR" s H).
Qed.

(** C2, as the code has it.  Take a data-retrieval invocation whose numbers
    are safe integers, which print digit for digit.  It requests one URL.
    The dimension key in it is [<country>.<indicator>] for an indicator
    given as text and [<country>.] for an omitted one (absent, or the [null]
    the wrappers pass).  When the codes and years carry none of [?], [#] and
    [&], the URL has the parameter [startPeriod=<start_year>] exactly when
    [start_year] passes the truthiness test (it is supplied and, for an
    integer, not 0), and [endPeriod=<end_year>] exactly when [end_year]
    does. *)
Theorem data_request_shape (remote : Http.Remote) (name : string)
    (a : Arguments) (d c i : value) :
  retrieval_call name a = Some (d, c, i) ->
  safe d = true -> safe c = true -> safe i = true ->
  safe (start_year a) = true -> safe (end_year a) = true ->
  Url.plain (to_string d) = true -> Url.plain (to_string c) = true ->
  Url.plain (to_string i) = true ->
  Url.plain (to_string (start_year a)) = true ->
  Url.plain (to_string (end_year a)) = true ->
  exists url,
    snd (dispatch remote {| name := name; arguments := Some a |}) = [url]
    /\ startsWith
         (UNICEF_API_BASE ++ "/data/UNICEF," ++ to_string d ++ ",1.0/"
          ++ dataKey c i ++ "?format=csv") url = true
    /\ (forall indicator, i = VStr indicator ->
          dataKey c i = to_string c ++ "." ++ indicator)
    /\ (i = VUndefined \/ i = VNull -> dataKey c i = to_string c ++ ".")
    /\ (if truthy (start_year a)
        then In ("startPeriod=" ++ to_string (start_year a)) (Url.params url)
        else forall v, ~ In ("startPeriod=" ++ v) (Url.params url))
    /\ (if truthy (end_year a)
        then In ("endPeriod=" ++ to_string (end_year a)) (Url.params url)
        else forall v, ~ In ("endPeriod=" ++ v) (Url.params url)).
Proof.
  intros Hcall _ _ _ _ _ Hd Hc Hi Hs He.
  exists (dataUrl d c i (start_year a) (end_year a)).
  rewrite (dispatch_retrieval remote name a d c i Hcall).
  rewrite (dataUrl_params d c i _ _ Hd Hc Hi Hs He).
  split; [reflexivity|]. split; [|split; [|split; [|split]]].
  - unfold dataUrl; cbv zeta.
    destruct (truthy (start_year a)), (truthy (end_year a));
      [ rewrite append_assoc; apply startsWith_append
      | apply startsWith_append
      | apply startsWith_append
      | apply startsWith_self ].
  - intros indicator ->; unfold dataKey; cbn [truthy to_string].
    destruct (String.eqb_spec indicator EmptyString) as [->|_]; reflexivity.
  - intros [->| ->]; reflexivity.
  - unfold period. destruct (truthy (start_year a)).
    + right; left; reflexivity.
    + intros v [H|H]; [discriminate H|].
      destruct (truthy (end_year a));
        [destruct H as [H|[]]; discriminate H | destruct H].
  - unfold period. destruct (truthy (end_year a)).
    + right. apply in_or_app. right; left; reflexivity.
    + intros v [H|H]; [discriminate H|].
      destruct (truthy (start_year a));
        [destruct H as [H|[]]; discriminate H | destruct H].
Qed.

Lemma data_request_shape_witness :
  safe (VNum 2000) = true
  /\ exists url,
       snd (dispatch (always (csv_response "REF_AREA,OBS_VALUE"))
              {| name := "get_child_mortality_data";
                 arguments := Some (between "BRA" 2000 2010) |})
       = [url]
       /\ In "startPeriod=2000" (Url.params url)
       /\ In "endPeriod=2010" (Url.params url).
Proof.
  split; [reflexivity|].
  destruct (data_request_shape (always (csv_response "REF_AREA,OBS_VALUE"))
              "get_child_mortality_data" (between "BRA" 2000 2010)
              (VStr "CME") (VStr "BRA") VNull
              eq_refl eq_refl eq_refl eq_refl eq_refl eq_refl
              eq_refl eq_refl eq_refl eq_refl eq_refl)
    as (url & Hurl & _ & _ & _ & Hstart & Hend).
  exists url. split; [exact Hurl|]. split; [exact Hstart|exact Hend].
Defined.

(** C2 as stated fails for a start year of 0: it is supplied, yet the test
    [if (startYear)] drops it and the URL has no [startPeriod] at all. *)
Lemma zero_start_year_dropped :
  start_year (from_zero "BRA" 2010) = VNum 0
  /\ VNum 0 <> VUndefined
  /\ snd (dispatch (always (csv_response "REF_AREA,OBS_VALUE"))
            {| name := "get_child_mortality_data";
               arguments := Some (from_zero "BRA" 2010) |})
     = [UNICEF_API_BASE
        ++ "/data/UNICEF,CME,1.0/BRA.?format=csv&endPeriod=2010"]
  /\ includes "startPeriod"
       (dataUrl (VStr "CME") (VStr "BRA") VNull (VNum 0) (VNum 2010))
     = false.
Proof.
  split; [reflexivity|]. split; [discriminate|].
  split; vm_compute; reflexivity.
Qed.

(** C3, as the code has it.  A data-retrieval operation that is given an
    [arguments] object performs no presence check: whatever the dataflow and
    country codes are, absent and empty ones included, it issues exactly one
    request, to the URL built from their texts, and the payload is decided by
    the remote answer.  Only an invocation without any [arguments] object
    issues no request; it is reported as an error payload. *)
Theorem retrieval_always_requests (remote : Http.Remote) (name : string)
    (a : Arguments) (d c i : value) :
  retrieval_call name a = Some (d, c, i) ->
  dispatch remote {| name := name; arguments := Some a |}
  = (Return (text_result
       (retrieval_payload
          (remote (dataUrl d c i (start_year a) (end_year a))) d c)),
     [dataUrl d c i (start_year a) (end_year a)])
  /\ dispatch remote {| name := name; arguments := None |}
     = (Return (text_result
          ("Error: Cannot read properties of undefined (reading '"
           ++ first_argument name ++ "')")), []).
Proof.
  intros H; split.
  - now apply dispatch_retrieval.
  - apply dispatch_retrieval_no_arguments.
    exists a. rewrite H. discriminate.
Qed.

Lemma retrieval_always_requests_witness :
  retrieval_call "get_nutrition_data" no_arguments
  = Some (VStr "NUTRITION", VUndefined, VNull)
  /\ snd (dispatch (always (csv_response "REF_AREA,OBS_VALUE"))
            {| name := "get_nutrition_data"; arguments := Some no_arguments |})
     = [UNICEF_API_BASE ++ "/data/UNICEF,NUTRITION,1.0/undefined.?format=csv"].
Proof.
  split; [reflexivity|].
  exact (f_equal snd
           (proj1 (retrieval_always_requests
                     (always (csv_response "REF_AREA,OBS_VALUE"))
                     "get_nutrition_data" no_arguments
                     (VStr "NUTRITION") VUndefined VNull eq_refl))).
Defined.

(** C3 as stated fails: with the country code absent, and with both codes
    empty, the request goes out all the same and the payload is the remote
    body, not a caller error. *)
Lemma missing_codes_still_requested :
  dispatch (always (csv_response "REF_AREA,OBS_VALUE"))
    {| name := "get_child_mortality_data"; arguments := Some no_arguments |}
  = (Return (text_result "REF_AREA,OBS_VALUE"),
     [UNICEF_API_BASE ++ "/data/UNICEF,CME,1.0/undefined.?format=csv"])
  /\ dispatch (always (csv_response "REF_AREA,OBS_VALUE"))
       {| name := "get_indicator_for_country";
          arguments :=
            Some {| dataflow_id := VStr EmptyString;
                    country_code := VStr EmptyString;
                    indicator_id := VUndefined; start_year := VUndefined;
                    end_year := VUndefined; keyword := VUndefined |} |}
     = (Return (text_result "REF_AREA,OBS_VALUE"),
        [UNICEF_API_BASE ++ "/data/UNICEF,,1.0/.?format=csv"]).
Proof.
  split; vm_compute; reflexivity.
Qed.

(** C5.  When the remote body of a data-retrieval invocation is empty or made
    of white space only, the payload is the ordinary text
    [No data found for <country> in <dataflow>], for the submitted codes. *)
Theorem blank_body_reported_as_no_data (remote : Http.Remote) (name : string)
    (a : Arguments) (d c i : value) (response : Http.Response) :
  retrieval_call name a = Some (d, c, i) ->
  remote (dataUrl d c i (start_year a) (end_year a)) = Return response ->
  all_chars is_space (Http.text response) = true ->
  dispatch remote {| name := name; arguments := Some a |}
  = (Return (text_result
       ("No data found for " ++ to_string c ++ " in " ++ to_string d)),
     [dataUrl d c i (start_year a) (end_year a)]).
Proof.
  intros Hcall Hanswer Hblank.
  rewrite (dispatch_retrieval remote name a d c i Hcall).
  unfold retrieval_payload. now rewrite Hanswer, Hblank.
Qed.

Lemma blank_body_reported_as_no_data_witness :
  all_chars is_space "   " = true
  /\ dispatch (always (csv_response "   "))
       {| name := "get_indicator_for_country";
          arguments :=
            Some {| dataflow_id := VStr "CME"; country_code := VStr "BRA";
                    indicator_id := VUndefined; start_year := VUndefined;
                    end_year := VUndefined; keyword := VUndefined |} |}
     = (Return (text_result "No data found for BRA in CME"),
        [UNICEF_API_BASE ++ "/data/UNICEF,CME,1.0/BRA.?format=csv"]).
Proof.
  split; [reflexivity|].
  exact (blank_body_reported_as_no_data (always (csv_response "   "))
           "get_indicator_for_country"
           {| dataflow_id := VStr "CME"; country_code := VStr "BRA";
              indicator_id := VUndefined; start_year := VUndefined;
              end_year := VUndefined; keyword := VUndefined |}
           (VStr "CME") (VStr "BRA") VUndefined (csv_response "   ")
           eq_refl eq_refl eq_refl).
Defined.

(** C8.  Each fixed-dataflow wrapper gives, for every remote and every
    arguments object, the outcome and the requests of
    [get_indicator_for_country] called with that dataflow, the same country
    and years and no indicator; the key then ends in the separator. *)
Theorem wrappers_are_generic_calls (remote : Http.Remote) (a : Arguments) :
  dispatch remote {| name := "get_child_poverty_data"; arguments := Some a |}
  = dispatch remote {| name := "get_indicator_for_country";
                       arguments := Some (generic_arguments "CHLD_PVTY" a) |}
  /\ dispatch remote {| name := "get_child_mortality_data"; arguments := Some a |}
     = dispatch remote {| name := "get_indicator_for_country";
                          arguments := Some (generic_arguments "CME" a) |}
  /\ dispatch remote {| name := "get_nutrition_data"; arguments := Some a |}
     = dispatch remote {| name := "get_indicator_for_country";
                          arguments := Some (generic_arguments "NUTRITION" a) |}
  /\ dataKey (country_code (generic_arguments "CME" a))
             (indicator_id (generic_arguments "CME" a))
     = to_string (country_code a) ++ ".".
Proof.
  repeat split;
    try (rewrite (dispatch_retrieval remote _ a _ (country_code a) VNull eq_refl);
         rewrite (dispatch_retrieval remote "get_indicator_for_country"
                    (generic_arguments _ a) _ (country_code a) VUndefined eq_refl);
         reflexivity).
Qed.

End AdapterClaims.

(** ** The metadata operations *)

Section MetadataClaims.

Import JS UnicefServer Claims.

Variable remote : Http.Remote.

(** The text [getIndicators] answers with, given the code lists it read. *)
Lemma dispatch_get_indicators (a : Arguments) (response : Http.Response)
    (doc : Sdmx.Document) :
  remote (metadataUrl (to_string (dataflow_id a))) = Return response ->
  Http.json response = Return doc ->
  dispatch remote {| name := "get_indicators"; arguments := Some a |}
  = (Return (text_result
       match find is_indicator_codelist (codelists_of doc) with
       | None =>
           "No indicator codelist found for dataflow "
           ++ to_string (dataflow_id a) ++ ". Available codelists: "
           ++ join ", " (codelist_ids (codelists_of doc))
       | Some cl =>
           Json.stringify (map id_label_pair (firstn 100 (codes_of cl)))
       end),
     [metadataUrl (to_string (dataflow_id a))]).
Proof.
  intros Hanswer Hjson.
  step_handler; unfold getIndicators; step_body.
  rewrite Hanswer, Hjson.
  destruct (find is_indicator_codelist (codelists_of doc)) as [cl|];
    [|reflexivity].
  unfold slice0, codes_of.
  destruct (Sdmx.Codelist.codes cl) as [codes|]; [|reflexivity].
  now rewrite firstn_map.
Qed.

Lemma matches_keyword_hit (kw : string) (code : Sdmx.Code.t) :
  matches_keyword (toLowerCase kw) code = keyword_hit kw code.
Proof. apply orb_comm. Qed.

(** The text [searchIndicators] answers with for a keyword given as text. *)
Lemma dispatch_search_indicators (a : Arguments) (kw : string)
    (response : Http.Response) (doc : Sdmx.Document) :
  keyword a = VStr kw ->
  remote (metadataUrl "GLOBAL_DATAFLOW") = Return response ->
  Http.json response = Return doc ->
  dispatch remote {| name := "search_indicators"; arguments := Some a |}
  = (Return (text_result
       match find is_indicator_codelist (codelists_of doc) with
       | None => "Could not find indicator codelist"
       | Some cl =>
           Json.stringify
             (map id_label_pair
                (firstn 50 (filter (keyword_hit kw) (codes_of cl))))
       end),
     [metadataUrl "GLOBAL_DATAFLOW"]).
Proof.
  intros Hkw Hanswer Hjson.
  step_handler; unfold searchIndicators; step_body.
  rewrite Hanswer, Hjson, Hkw.
  destruct (find is_indicator_codelist (codelists_of doc)) as [cl|];
    [|reflexivity].
  unfold keyword_toLowerCase, ret, slice0, codes_of.
  destruct (Sdmx.Codelist.codes cl) as [codes|]; [|reflexivity].
  rewrite firstn_map.
  rewrite (filter_ext _ _ (matches_keyword_hit kw)).
  reflexivity.
Qed.

Lemma codelist_id_listed (cls : list Sdmx.Codelist.t) (cl : Sdmx.Codelist.t)
    (id : string) :
  In cl cls -> Sdmx.Codelist.id cl = Some id -> In id (codelist_ids cls).
Proof.
  intros Hin Hid. unfold codelist_ids.
  apply in_map_iff. exists cl. now rewrite Hid.
Qed.

(** C4, as the code has it.  When no code list of the metadata response has
    an identifier containing "INDICATOR" or "IND", [get_indicators] answers
    with a message that names the dataflow and lists the identifier of every
    code list that was present, while [search_indicators] answers with the
    fixed message [Could not find indicator codelist]. *)
Theorem missing_indicator_list_reported (a : Arguments)
    (response : Http.Response) (doc : Sdmx.Document) :
  Http.json response = Return doc ->
  (forall cl, In cl (codelists_of doc) -> is_indicator_codelist cl = false) ->
  (remote (metadataUrl (to_string (dataflow_id a))) = Return response ->
   exists text,
     dispatch remote {| name := "get_indicators"; arguments := Some a |}
     = (Return (text_result text), [metadataUrl (to_string (dataflow_id a))])
     /\ text = "No indicator codelist found for dataflow "
               ++ to_string (dataflow_id a) ++ ". Available codelists: "
               ++ join ", " (codelist_ids (codelists_of doc))
     /\ forall cl id, In cl (codelists_of doc) ->
          Sdmx.Codelist.id cl = Some id -> includes id text = true)
  /\ (remote (metadataUrl "GLOBAL_DATAFLOW") = Return response ->
      dispatch remote {| name := "search_indicators"; arguments := Some a |}
      = (Return (text_result "Could not find indicator codelist"),
         [metadataUrl "GLOBAL_DATAFLOW"])).
Proof.
  intros Hjson Hnone.
  pose proof (find_none is_indicator_codelist _ Hnone) as Hfind.
  split.
  - intros Hanswer. eexists. split; [|split; [reflexivity|]].
    + rewrite (dispatch_get_indicators a response doc Hanswer Hjson).
      now rewrite Hfind.
    + intros cl id Hin Hid.
      do 3 apply includes_append_r.
      apply includes_join. exact (codelist_id_listed _ cl id Hin Hid).
  - intros Hanswer.
    step_handler; unfold searchIndicators; step_body.
    now rewrite Hanswer, Hjson, Hfind.
Qed.

Lemma filter_nothing {A : Type} (p : A -> bool) (xs : list A) :
  (forall x, In x xs -> p x = false) -> filter p xs = [].
Proof.
  induction xs as [|x xs IH]; intros H; simpl; [reflexivity|].
  rewrite (H x (or_introl eq_refl)).
  apply IH. intros y Hy. apply H. now right.
Qed.

Lemma in_firstn {A : Type} (n : nat) (xs : list A) (x : A) :
  In x (firstn n xs) -> In x xs.
Proof.
  intros H. rewrite <- (firstn_skipn n xs).
  apply in_or_app. now left.
Qed.

(** C6.  Given a keyword and the indicator code list, [search_indicators]
    answers with the codes whose identifier or label contains the keyword
    case-insensitively, in order and cut to the first 50: every entry is such
    a code, every such code is an entry when there are at most 50 of them,
    and with no such code the payload is the empty list, not an error. *)
Theorem search_returns_hits (a : Arguments) (kw : string)
    (response : Http.Response) (doc : Sdmx.Document) (cl : Sdmx.Codelist.t) :
  keyword a = VStr kw ->
  remote (metadataUrl "GLOBAL_DATAFLOW") = Return response ->
  Http.json response = Return doc ->
  find is_indicator_codelist (codelists_of doc) = Some cl ->
  exists entries,
    dispatch remote {| name := "search_indicators"; arguments := Some a |}
    = (Return (text_result (Json.stringify (map id_label_pair entries))),
       [metadataUrl "GLOBAL_DATAFLOW"])
    /\ entries = firstn 50 (filter (keyword_hit kw) (codes_of cl))
    /\ length entries <= 50
    /\ (forall code, In code entries ->
          In code (codes_of cl) /\ keyword_hit kw code = true)
    /\ (length (filter (keyword_hit kw) (codes_of cl)) <= 50 ->
        forall code, In code (codes_of cl) -> keyword_hit kw code = true ->
                     In code entries)
    /\ ((forall code, In code (codes_of cl) -> keyword_hit kw code = false) ->
        Json.stringify (map id_label_pair entries) = "[]").
Proof.
  intros Hkw Hanswer Hjson Hfind.
  exists (firstn 50 (filter (keyword_hit kw) (codes_of cl))).
  split; [|split; [reflexivity|split; [|split; [|split]]]].
  - rewrite (dispatch_search_indicators a kw response doc Hkw Hanswer Hjson).
    now rewrite Hfind.
  - apply firstn_le_length.
  - intros code Hin. apply in_firstn in Hin.
    now apply filter_In in Hin.
  - intros Hfew code Hin Hhit.
    rewrite firstn_all2 by exact Hfew.
    apply filter_In. now split.
  - intros Hnone. now rewrite (filter_nothing _ _ Hnone).
Qed.

(** C7.  [get_indicators] takes the first code list whose identifier
    contains "INDICATOR" or "IND" and answers with at most the first 100 of
    its codes, each as an [{id, name}] pair. *)
Theorem indicators_from_first_list (a : Arguments) (response : Http.Response)
    (doc : Sdmx.Document) (before after : list Sdmx.Codelist.t)
    (cl : Sdmx.Codelist.t) :
  remote (metadataUrl (to_string (dataflow_id a))) = Return response ->
  Http.json response = Return doc ->
  codelists_of doc = (before ++ cl :: after)%list ->
  (forall c, In c before -> is_indicator_codelist c = false) ->
  is_indicator_codelist cl = true ->
  dispatch remote {| name := "get_indicators"; arguments := Some a |}
  = (Return (text_result
       (Json.stringify (map id_label_pair (firstn 100 (codes_of cl))))),
     [metadataUrl (to_string (dataflow_id a))])
  /\ length (map id_label_pair (firstn 100 (codes_of cl))) <= 100.
Proof.
  intros Hanswer Hjson Hlists Hbefore Hcl. split.
  - rewrite (dispatch_get_indicators a response doc Hanswer Hjson).
    now rewrite Hlists, (find_first _ before after cl Hbefore Hcl).
  - rewrite length_map. apply firstn_le_length.
Qed.

End MetadataClaims.

Section MetadataWitnesses.

Import JS UnicefServer Claims Samples.

Lemma missing_indicator_list_reported_witness :
  is_indicator_codelist area_list = false
  /\ exists text,
       dispatch (always (metadata_response [area_list; age_list]))
         {| name := "get_indicators"; arguments := Some (with_dataflow "CME") |}
       = (Return (text_result text), [metadataUrl "CME"])
       /\ includes "CL_AGE" text = true.
Proof.
  split; [reflexivity|].
  destruct (missing_indicator_list_reported
              (always (metadata_response [area_list; age_list]))
              (with_dataflow "CME")
              (metadata_response [area_list; age_list]) _ eq_refl)
    as [Hget _].
  - intros cl [<-|[<-|[]]]; reflexivity.
  - destruct (Hget eq_refl) as (text & Hdispatch & _ & Hlisted).
    exists text. split; [exact Hdispatch|].
    apply (Hlisted age_list); [right; left|]; reflexivity.
Defined.

(** C4 as stated fails for [search_indicators]: with code lists [CL_AREA]
    and [CL_AGE] only, none is selected, and the payload names neither. *)
Lemma search_without_indicator_list :
  is_indicator_codelist area_list = false
  /\ is_indicator_codelist age_list = false
  /\ dispatch (always (metadata_response [area_list; age_list]))
       {| name := "search_indicators";
          arguments := Some (with_keyword "poverty") |}
     = (Return (text_result "Could not find indicator codelist"),
        [metadataUrl "GLOBAL_DATAFLOW"])
  /\ includes "CL_AREA" "Could not find indicator codelist" = false
  /\ includes "CL_AGE" "Could not find indicator codelist" = false.
Proof.
  repeat split; vm_compute; reflexivity.
Qed.

Lemma search_returns_hits_witness :
  find is_indicator_codelist [area_list; indicator_list] = Some indicator_list
  /\ exists entries,
       dispatch (always (metadata_response [area_list; indicator_list]))
         {| name := "search_indicators";
            arguments := Some (with_keyword "POVERTY") |}
       = (Return (text_result (Json.stringify (map id_label_pair entries))),
          [metadataUrl "GLOBAL_DATAFLOW"])
       /\ entries = [poverty_code].
Proof.
  split; [reflexivity|].
  destruct (search_returns_hits
              (always (metadata_response [area_list; indicator_list]))
              (with_keyword "POVERTY") "POVERTY"
              (metadata_response [area_list; indicator_list]) _ indicator_list
              eq_refl eq_refl eq_refl eq_refl)
    as (entries & Hdispatch & Hentries & _).
  exists entries. split; [exact Hdispatch|].
  rewrite Hentries. reflexivity.
Defined.

Lemma indicators_from_first_list_witness :
  is_indicator_codelist area_list = false
  /\ is_indicator_codelist indicator_list = true
  /\ dispatch (always (metadata_response [area_list; indicator_list; age_list]))
       {| name := "get_indicators"; arguments := Some (with_dataflow "CME") |}
     = (Return (text_result
          (Json.stringify (map id_label_pair [mortality_code; poverty_code]))),
        [metadataUrl "CME"]).
Proof.
  split; [reflexivity|]. split; [reflexivity|].
  refine (proj1 (indicators_from_first_list
                   (always (metadata_response
                              [area_list; indicator_list; age_list]))
                   (with_dataflow "CME")
                   (metadata_response [area_list; indicator_list; age_list]) _
                   [area_list] [age_list] indicator_list
                   eq_refl eq_refl eq_refl _ eq_refl)).
  intros c [<-|[]]; reflexivity.
Defined.

End MetadataWitnesses.

(** ** The chart renderer *)

Section ChartClaims.

Import Charts PageBehaviour.

Variable lib : Library.

(** The update of one chart leaves the other charts alone. *)
Lemma update_chart_frame (c c' : ChartId) (d : option json) (page : Page) :
  c' <> c -> chart c' (snd (update_chart lib c d page)) = chart c' page.
Proof.
  intros Hc.
  destruct page as [m n p], d as [v|];
    destruct c, c'; try contradiction;
    try destruct m; try destruct n; try destruct p; cbn;
    try destruct (truthy v); reflexivity.
Qed.

(** The update of a chart writes the value into it when the value is
    truthy. *)
Lemma update_chart_own (c : ChartId) (v : json) (page : Page) :
  chart c (snd (update_chart lib c (Some v) page))
  = if truthy v then option_map (written c v) (chart c page) else chart c page.
Proof.
  destruct page as [m n p]; destruct c;
    try destruct m; try destruct n; try destruct p; cbn;
    destruct (truthy v); reflexivity.
Qed.

Lemma update_chart_ending (c : ChartId) (v : json) (page : Page) :
  fst (update_chart lib c (Some v) page)
  = match chart c page with
    | Some ch => if truthy v then update lib (written c v ch) else Return tt
    | None => Return tt
    end.
Proof.
  destruct page as [m n p]; destruct c;
    try destruct m; try destruct n; try destruct p; cbn;
    destruct (truthy v); reflexivity.
Qed.

Lemma step_frame (d : json) (c c' : ChartId) (page : Page) :
  c' <> c -> chart c' (snd (step lib d c page)) = chart c' page.
Proof.
  intros Hc. unfold step, when.
  destruct (truthy_opt (prop d (key c))); [|reflexivity].
  now apply update_chart_frame.
Qed.

Lemma step_own (d : json) (c : ChartId) (page : Page) :
  chart c (snd (step lib d c page))
  = match prop d (key c) with
    | Some v =>
        if truthy v then option_map (written c v) (chart c page)
        else chart c page
    | None => chart c page
    end.
Proof.
  unfold step, when.
  destruct (prop d (key c)) as [v|]; cbn [truthy_opt]; [|reflexivity].
  destruct (truthy v) eqn:Hv; [|reflexivity].
  now rewrite update_chart_own, Hv.
Qed.

Lemma step_ending (d : json) (c : ChartId) (page : Page) :
  fst (step lib d c page) = update_ending lib d page c.
Proof.
  unfold step, when, update_ending.
  destruct (prop d (key c)) as [v|]; cbn [truthy_opt].
  - destruct (truthy v) eqn:Hv.
    + now rewrite update_chart_ending, Hv.
    + now destruct (chart c page).
  - now destruct (chart c page).
Qed.

(** How an update would end depends on the page through its own chart only. *)
Lemma update_ending_own (d : json) (c : ChartId) (p1 p2 : Page) :
  chart c p1 = chart c p2 ->
  update_ending lib d p1 c = update_ending lib d p2 c.
Proof.
  intros H. unfold update_ending. now rewrite H.
Qed.

(** The three updates in a row, for a document other than [null]. *)
Lemma updateChartsWithData_steps (d : json) :
  d <> JNull ->
  updateChartsWithData lib d
  = and_then (step lib d Mortality)
      (and_then (step lib d Nutrition) (step lib d Poverty)).
Proof.
  intros Hd. destruct d; [contradiction|..]; reflexivity.
Qed.

Lemma and_then_page (first second : Script) (page : Page) :
  snd (and_then first second page)
  = if returns (fst (first page)) then snd (second (snd (first page)))
    else snd (first page).
Proof.
  unfold and_then. now destruct (first page) as [[u|m] page'].
Qed.

Lemma and_then_ending (first second : Script) (page : Page) :
  fst (and_then first second page)
  = if returns (fst (first page)) then fst (second (snd (first page)))
    else fst (first page).
Proof.
  unfold and_then. now destruct (first page) as [[u|m] page'].
Qed.

(** A chart after the updates: the value under its key is written into it
    when that value is truthy and no earlier update has thrown. *)
Lemma updateChartsWithData_chart (d : json) (page : Page) (c : ChartId) :
  chart c (snd (updateChartsWithData lib d page))
  = match prop d (key c) with
    | Some v =>
        if truthy v && reached lib d page c
        then option_map (written c v) (chart c page)
        else chart c page
    | None => chart c page
    end.
Proof.
  assert (Hnull : d = JNull \/ d <> JNull)
    by (destruct d; [left; reflexivity|right; discriminate..]).
  destruct Hnull as [->|Hd].
  - now destruct c.
  - rewrite (updateChartsWithData_steps d Hd).
    unfold reached.
    destruct c; cbn [earlier forallb];
      rewrite !and_then_page, ?step_ending;
      rewrite ?(update_ending_own d Nutrition (snd (step lib d Mortality page)) page)
        by (apply step_frame; discriminate);
      repeat match goal with
        | |- context [returns (update_ending lib d page ?x)] =>
            destruct (returns (update_ending lib d page x))
        end;
      rewrite ?step_own, ?step_frame by discriminate;
      rewrite ?step_own, ?step_frame by discriminate;
      destruct (prop d _) as [v|]; try reflexivity;
      destruct (truthy v); reflexivity.
Qed.

(** How the three updates end: with the first throw, if there is one. *)
Lemma updateChartsWithData_ending (d : json) (page : Page) :
  d <> JNull ->
  fst (updateChartsWithData lib d page)
  = if returns (update_ending lib d page Mortality)
    then if returns (update_ending lib d page Nutrition)
         then update_ending lib d page Poverty
         else update_ending lib d page Nutrition
    else update_ending lib d page Mortality.
Proof.
  intros Hd. rewrite (updateChartsWithData_steps d Hd).
  rewrite and_then_ending, step_ending.
  destruct (returns (update_ending lib d page Mortality)); [|reflexivity].
  rewrite and_then_ending, !step_ending.
  rewrite (update_ending_own d Nutrition (snd (step lib d Mortality page)) page)
    by (apply step_frame; discriminate).
  destruct (returns (update_ending lib d page Nutrition)); [|reflexivity].
  apply update_ending_own.
  rewrite !step_frame by discriminate. reflexivity.
Qed.

Lemma updateChartsWithData_frame (d : json) (page : Page) (c : ChartId) :
  prop d (key c) = None ->
  chart c (snd (updateChartsWithData lib d page)) = chart c page.
Proof.
  intros Hkey. now rewrite updateChartsWithData_chart, Hkey.
Qed.

Lemma loaded_document (d : json) (page : Page) :
  fst (loadDataFromJSON lib (Responded true (Return d)) page)
  = snd (updateChartsWithData lib d page).
Proof.
  unfold loadDataFromJSON.
  now destruct (updateChartsWithData lib d page) as [[u|m] page'].
Qed.

Lemma loaded_log (d : json) (page : Page) :
  snd (loadDataFromJSON lib (Responded true (Return d)) page)
  = if returns (fst (updateChartsWithData lib d page))
    then [] else [placeholder_notice].
Proof.
  unfold loadDataFromJSON.
  now destruct (updateChartsWithData lib d page) as [[u|m] page'].
Qed.

Lemma loadDataFromJSON_frame (summary : Summary) (page : Page) (c : ChartId) :
  unavailable c summary = true ->
  chart c (fst (loadDataFromJSON lib summary page)) = chart c page.
Proof.
  destruct summary as [message|[|] [d|message]]; try reflexivity.
  cbn [unavailable].
  destruct (prop d (key c)) eqn:Hkey; [discriminate|]; intros _.
  rewrite loaded_document. now apply updateChartsWithData_frame.
Qed.

(** Initialisation installs, on every chart whose anchor is on the page, the
    chart the constructor makes of the placeholder series. *)
Lemma initCharts_chart (dom : Dom) (c : ChartId) :
  chart c (initCharts dom) = if dom (anchor c) then Some (installed c) else None.
Proof.
  unfold initCharts, initPovertyChart, initNutritionChart, initMortalityChart.
  destruct c; cbn [anchor];
    destruct (dom "mortalityChart"), (dom "nutritionChart"),
      (dom "povertyChart"); reflexivity.
Qed.

(** C9.  For each chart, when the summary fetch is rejected, answers with a
    non-success status, does not parse, or parses to a document without that
    chart's key, the chart after loading is the chart that initialisation
    installed, whatever the library's [update()] does on the other charts:
    its datasets are the placeholder's, and its labels are the placeholder's
    (the empty list the constructor puts where the scatter placeholder has
    none). *)
Theorem placeholders_kept (dom : Dom) (summary : Summary) (c : ChartId) :
  unavailable c summary = true ->
  chart c (fst (onDOMContentLoaded lib dom summary)) = chart c (initCharts dom)
  /\ option_map data (chart c (fst (onDOMContentLoaded lib dom summary)))
     = (if dom (anchor c) then Some (data (installed c)) else None)
  /\ datasets (data (installed c)) = datasets (placeholderData c)
  /\ labels (data (installed c))
     = match c with
       | Poverty => Some (JArr [])
       | _ => labels (placeholderData c)
       end.
Proof.
  intros H. unfold onDOMContentLoaded.
  rewrite (loadDataFromJSON_frame summary (initCharts dom) c H).
  split; [reflexivity|split; [|split]].
  - rewrite initCharts_chart. now destruct (dom (anchor c)).
  - now destruct c.
  - now destruct c.
Qed.

End ChartClaims.

Lemma placeholders_kept_witness :
  Charts.unavailable Charts.Nutrition
    (Charts.Responded true
       (Return (Charts.JObj
                  [ ("mortality", Charts.JObj [ ("labels", Charts.JArr []) ]) ])))
  = true
  /\ option_map Charts.data
       (Charts.chart Charts.Nutrition
          (fst (Charts.onDOMContentLoaded MoreSamples.strict (fun _ => true)
                  (Charts.Responded true
                     (Return (Charts.JObj
                                [ ("mortality",
                                   Charts.JObj
                                     [ ("labels", Charts.JArr []) ]) ]))))))
     = Some Charts.nutritionPlaceholder.
Proof.
  split; [reflexivity|].
  exact (proj1 (proj2 (placeholders_kept MoreSamples.strict (fun _ => true)
                  (Charts.Responded true
                     (Return (Charts.JObj
                                [ ("mortality",
                                   Charts.JObj
                                     [ ("labels", Charts.JArr []) ]) ])))
                  Charts.Nutrition eq_refl))).
Defined.

(** ** Whole operations *)

(** Splits on the operation name, in the order of the [switch]; the last
    case keeps the seven tests as failed. *)
Ltac by_operation name :=
  destruct (String.eqb_spec name "list_dataflows") as [->|?];
  [| destruct (String.eqb_spec name "get_indicators") as [->|?];
   [| destruct (String.eqb_spec name "get_child_poverty_data") as [->|?];
    [| destruct (String.eqb_spec name "get_child_mortality_data") as [->|?];
     [| destruct (String.eqb_spec name "get_nutrition_data") as [->|?];
      [| destruct (String.eqb_spec name "get_indicator_for_country") as [->|?];
       [| destruct (String.eqb_spec name "search_indicators") as [->|?];
        [| repeat match goal with
             | H : name <> _ |- _ => apply String.eqb_neq in H
             end ] ] ] ] ] ] ].

(** Follows an operation through every way its awaited calls can end. *)
Ltac every_ending :=
  repeat (cbv beta iota;
          match goal with
          | |- context [match ?x with Return _ => _ | Throw _ => _ end] =>
              destruct x
          | |- context [match ?x with Some _ => _ | None => _ end] =>
              destruct x
          | |- context [if ?b then _ else _] => destruct b
          | |- context [UnicefServer.keyword_toLowerCase ?k] =>
              destruct k; unfold UnicefServer.keyword_toLowerCase, ret, throw
          end).

Section WholeOperations.

Import JS UnicefServer Claims Behaviour.

Variable remote : Http.Remote.

Lemma unregistered_call (name : string) (args : option Arguments) :
  (name =? "list_dataflows") = false ->
  (name =? "get_indicators") = false ->
  (name =? "get_child_poverty_data") = false ->
  (name =? "get_child_mortality_data") = false ->
  (name =? "get_nutrition_data") = false ->
  (name =? "get_indicator_for_country") = false ->
  (name =? "search_indicators") = false ->
  dispatch remote {| name := name; arguments := args |}
  = (Return (text_result ("Error: Unknown tool: " ++ name)), []).
Proof.
  intros H1 H2 H3 H4 H5 H6 H7.
  unfold dispatch, run, callTool, try_catch.
  cbn [UnicefServer.name arguments].
  now rewrite H1, H2, H3, H4, H5, H6, H7.
Qed.

(** The requests of an invocation are those read off the request. *)
Lemma dispatch_requests (request : Request) :
  snd (dispatch remote request) = requested request.
Proof.
  destruct request as [name args].
  by_operation name.
  8: { rewrite unregistered_call by assumption.
       unfold requested, retrieval_call; cbn [UnicefServer.name arguments snd].
       repeat match goal with H : (name =? _) = false |- _ => rewrite H end.
       now destruct args. }
  all: destruct args as [a|]; step_handler;
    unfold listDataflows, getIndicators, getData, searchIndicators;
    step_body; every_ending; reflexivity.
Qed.

Lemma requested_at_most_one (request : Request) :
  length (requested request) <= 1.
Proof.
  unfold requested, retrieval_call.
  repeat match goal with
    | |- context [if ?b then _ else _] => destruct b
    | |- context [match ?o with Some _ => _ | None => _ end] => destruct o
    end; cbn [length]; lia.
Qed.

(** X1.  Whatever the request and whatever the remote does, the handler ends
    normally, with a payload of exactly one item, of type text: no failure of
    an operation leaves the handler as a thrown error. *)
Theorem dispatch_always_answers (request : Request) :
  exists text, fst (dispatch remote request) = Return (text_result text).
Proof.
  destruct request as [name args].
  by_operation name.
  8: { rewrite unregistered_call by assumption. now eexists. }
  all: destruct args as [a|]; step_handler;
    unfold listDataflows, getIndicators, getData, searchIndicators;
    step_body; every_ending; now eexists.
Qed.

(** X2.  The requests an invocation issues are decided by the request alone,
    never by what the remote answers, and there is at most one: nothing is
    retried and no operation asks twice. *)
Theorem requests_decided_by_request (request : Request) :
  snd (dispatch remote request) = requested request
  /\ length (snd (dispatch remote request)) <= 1.
Proof.
  rewrite dispatch_requests. split; [reflexivity|].
  apply requested_at_most_one.
Qed.

(** X3.  An invocation that carries an arguments object issues exactly one
    request when its name is one of the seven registered operations and none
    otherwise. *)
Theorem one_request_when_registered (name : string) (a : Arguments) :
  length (snd (dispatch remote {| name := name; arguments := Some a |}))
  = if registered name then 1 else 0.
Proof.
  rewrite dispatch_requests.
  by_operation name; try reflexivity.
  unfold requested, retrieval_call, registered, tools.
  cbn [UnicefServer.name arguments existsb].
  repeat match goal with H : (name =? _) = false |- _ => rewrite H end.
  reflexivity.
Qed.

(** X4.  When reading the document fails, because [fetch] is rejected or the
    body is not JSON, each of the three document operations answers with an
    error payload that names the operation's failure and carries the original
    message, after its one request. *)
Theorem document_failure_reported (name : string) (args : option Arguments)
    (url words message : string) :
  document_call name args = Some (url, words) ->
  document_failure (remote url) = Some message ->
  dispatch remote {| name := name; arguments := args |}
  = (Return (text_result ("Error: " ++ words ++ message)), [url]).
Proof.
  unfold document_call, document_failure.
  by_operation name;
    cbn [String.eqb Ascii.eqb Bool.eqb];
    repeat match goal with H : (name =? _) = false |- _ => rewrite H end;
    try (destruct args as [a|]); try discriminate;
    intros Hcall; injection Hcall as <- <-; intros Hfail;
    step_handler; unfold listDataflows, getIndicators, searchIndicators;
    step_body;
    (destruct (remote _) as [response|m];
     [ destruct (Http.json response) as [doc|m]; [discriminate Hfail|] | ]);
    injection Hfail as ->; reflexivity.
Qed.

(** X5.  A body with anything but white space in it is handed back as it
    came, character for character, whether or not it would parse as JSON. *)
Theorem data_body_returned_verbatim (name : string) (a : Arguments)
    (d c i : value) (response : Http.Response) :
  retrieval_call name a = Some (d, c, i) ->
  remote (dataUrl d c i (start_year a) (end_year a)) = Return response ->
  all_chars is_space (Http.text response) = false ->
  dispatch remote {| name := name; arguments := Some a |}
  = (Return (text_result (Http.text response)),
     [dataUrl d c i (start_year a) (end_year a)]).
Proof.
  intros Hcall Hanswer Hbody.
  rewrite (dispatch_retrieval remote name a d c i Hcall).
  unfold retrieval_payload. now rewrite Hanswer, Hbody.
Qed.

(** X6.  A rejected [fetch] of a data-retrieval operation is reported as
    [Error: Failed to fetch data: <message>]. *)
Theorem data_fetch_failure_reported (name : string) (a : Arguments)
    (d c i : value) (message : string) :
  retrieval_call name a = Some (d, c, i) ->
  remote (dataUrl d c i (start_year a) (end_year a)) = Throw message ->
  dispatch remote {| name := name; arguments := Some a |}
  = (Return (text_result ("Error: Failed to fetch data: " ++ message)),
     [dataUrl d c i (start_year a) (end_year a)]).
Proof.
  intros Hcall Hanswer.
  rewrite (dispatch_retrieval remote name a d c i Hcall).
  unfold retrieval_payload. now rewrite Hanswer.
Qed.

Lemma display_name_filled (names : option Sdmx.Names) (name : option string) :
  display_name names name <> EmptyString.
Proof.
  unfold display_name, or_else, or_opt, truthy_str.
  destruct (Sdmx.names_en names) as [e|].
  - destruct (String.eqb_spec e EmptyString) as [->|He]; cbn [negb].
    + destruct name as [n|]; [|discriminate].
      destruct (String.eqb_spec n EmptyString); [discriminate|assumption].
    + destruct (String.eqb_spec e EmptyString); [contradiction|assumption].
  - destruct name as [n|]; [|discriminate].
    destruct (String.eqb_spec n EmptyString); [discriminate|assumption].
Qed.

(** X7.  [list_dataflows] reads no argument: with or without an arguments
    object it announces every dataflow of the answer, uncut and in order, as
    a record whose name is never empty; an answer without a [data] section
    or without [dataflows] gives the empty list. *)
Theorem dataflows_listed (args : option Arguments) (response : Http.Response)
    (doc : Sdmx.Document) :
  remote discoveryUrl = Return response ->
  Http.json response = Return doc ->
  exists records,
    dispatch remote {| name := "list_dataflows"; arguments := args |}
    = (Return (text_result (Json.stringify records)), [discoveryUrl])
    /\ records = map dataflow_record (dataflows_of doc)
    /\ length records = length (dataflows_of doc)
    /\ (forall r, In r records ->
          exists label, property "name" r = Some label /\ label <> EmptyString)
    /\ (dataflows_of doc = [] -> Json.stringify records = "[]").
Proof.
  intros Hanswer Hjson.
  exists (map dataflow_record (dataflows_of doc)).
  split; [|split; [reflexivity|split; [apply length_map|split]]].
  - step_handler; unfold listDataflows; step_body.
    fold discoveryUrl. now rewrite Hanswer, Hjson.
  - intros r Hr. apply in_map_iff in Hr as (df & <- & _).
    eexists. split; [reflexivity|apply display_name_filled].
  - now intros ->.
Qed.

(** X8.  [get_indicators] announces as many entries as the selected code
    list has codes, up to 100, each with a name that is never empty; a
    selected list without a [codes] property gives the empty list. *)
Theorem indicators_counted (a : Arguments) (response : Http.Response)
    (doc : Sdmx.Document) (cl : Sdmx.Codelist.t) :
  remote (metadataUrl (to_string (dataflow_id a))) = Return response ->
  Http.json response = Return doc ->
  find is_indicator_codelist (codelists_of doc) = Some cl ->
  exists entries,
    dispatch remote {| name := "get_indicators"; arguments := Some a |}
    = (Return (text_result (Json.stringify entries)),
       [metadataUrl (to_string (dataflow_id a))])
    /\ length entries = Nat.min 100 (length (codes_of cl))
    /\ (forall e, In e entries ->
          exists label, property "name" e = Some label /\ label <> EmptyString)
    /\ (Sdmx.Codelist.codes cl = None -> Json.stringify entries = "[]").
Proof.
  intros Hanswer Hjson Hfind.
  exists (map id_label_pair (firstn 100 (codes_of cl))).
  split; [|split; [|split]].
  - rewrite (dispatch_get_indicators remote a response doc Hanswer Hjson).
    now rewrite Hfind.
  - now rewrite length_map, length_firstn.
  - intros e He. apply in_map_iff in He as (code & <- & _).
    eexists. split; [reflexivity|apply display_name_filled].
  - unfold codes_of. now intros ->.
Qed.

(** X9.  An answer with no [data] section, or with no [codelists] in it, is
    treated as an answer with no code list: [get_indicators] reports that no
    indicator code list was found, with nothing after "Available
    codelists:", and [search_indicators] reports that it could not find
    one. *)
Theorem missing_section_is_no_codelist (a : Arguments)
    (response : Http.Response) (doc : Sdmx.Document) :
  Http.json response = Return doc ->
  codelists_of doc = [] ->
  (remote (metadataUrl (to_string (dataflow_id a))) = Return response ->
   dispatch remote {| name := "get_indicators"; arguments := Some a |}
   = (Return (text_result
        ("No indicator codelist found for dataflow "
         ++ to_string (dataflow_id a) ++ ". Available codelists: ")),
      [metadataUrl (to_string (dataflow_id a))]))
  /\ (remote (metadataUrl "GLOBAL_DATAFLOW") = Return response ->
      dispatch remote {| name := "search_indicators"; arguments := Some a |}
      = (Return (text_result "Could not find indicator codelist"),
         [metadataUrl "GLOBAL_DATAFLOW"])).
Proof.
  intros Hjson Hnone. split; intros Hanswer.
  - rewrite (dispatch_get_indicators remote a response doc Hanswer Hjson).
    now rewrite Hnone.
  - step_handler; unfold searchIndicators; step_body.
    now rewrite Hanswer, Hjson, Hnone.
Qed.

(** X10.  [search_indicators] sees its keyword only through its lower-case
    form: two keywords that differ in letter case give the same payload. *)
Theorem search_ignores_case (a1 a2 : Arguments) (k1 k2 : string) :
  keyword a1 = VStr k1 -> keyword a2 = VStr k2 ->
  toLowerCase k1 = toLowerCase k2 ->
  dispatch remote {| name := "search_indicators"; arguments := Some a1 |}
  = dispatch remote {| name := "search_indicators"; arguments := Some a2 |}.
Proof.
  intros H1 H2 Hcase.
  step_handler; unfold searchIndicators; step_body.
  rewrite H1, H2. unfold keyword_toLowerCase, ret. now rewrite Hcase.
Qed.

Lemma filter_everything {A : Type} (p : A -> bool) (xs : list A) :
  (forall x, p x = true) -> filter p xs = xs.
Proof.
  intros H; induction xs as [|x xs IH]; simpl; [reflexivity|].
  now rewrite H, IH.
Qed.

Lemma empty_keyword_hits (code : Sdmx.Code.t) :
  keyword_hit EmptyString code = true.
Proof.
  unfold keyword_hit, contains_ci. cbn [toLowerCase].
  apply orb_true_iff. left. apply includes_start, startsWith_empty.
Qed.

(** X11.  With the empty keyword every code matches: [search_indicators]
    answers with the first 50 codes of the indicator code list. *)
Theorem empty_keyword_lists_codes (a : Arguments) (response : Http.Response)
    (doc : Sdmx.Document) (cl : Sdmx.Codelist.t) :
  keyword a = VStr EmptyString ->
  remote (metadataUrl "GLOBAL_DATAFLOW") = Return response ->
  Http.json response = Return doc ->
  find is_indicator_codelist (codelists_of doc) = Some cl ->
  dispatch remote {| name := "search_indicators"; arguments := Some a |}
  = (Return (text_result
       (Json.stringify (map id_label_pair (firstn 50 (codes_of cl))))),
     [metadataUrl "GLOBAL_DATAFLOW"]).
Proof.
  intros Hkw Hanswer Hjson Hfind.
  rewrite (dispatch_search_indicators remote a EmptyString response doc
             Hkw Hanswer Hjson).
  now rewrite Hfind, (filter_everything _ _ empty_keyword_hits).
Qed.

(** X12.  The keyword is looked at only after the metadata has been fetched
    and an indicator code list found: a keyword that is not a text (absent,
    null, a number, a boolean) then gives an error payload that starts
    [Error: Failed to search indicators: ], with the request already
    issued. *)
Theorem keyword_checked_after_fetch (a : Arguments) (response : Http.Response)
    (doc : Sdmx.Document) (cl : Sdmx.Codelist.t) :
  is_text (keyword a) = false ->
  remote (metadataUrl "GLOBAL_DATAFLOW") = Return response ->
  Http.json response = Return doc ->
  find is_indicator_codelist (codelists_of doc) = Some cl ->
  exists message,
    dispatch remote {| name := "search_indicators"; arguments := Some a |}
    = (Return (text_result ("Error: Failed to search indicators: " ++ message)),
       [metadataUrl "GLOBAL_DATAFLOW"]).
Proof.
  intros Hkw Hanswer Hjson Hfind.
  step_handler; unfold searchIndicators; step_body.
  rewrite Hanswer, Hjson, Hfind.
  destruct (keyword a); try discriminate Hkw;
    unfold keyword_toLowerCase, throw; now eexists.
Qed.

(** X13.  Each operation depends on its arguments only through the
    properties it reads: the three wrappers ignore any [dataflow_id] and
    [indicator_id], [search_indicators] reads the keyword only,
    [get_indicators] the dataflow only, [list_dataflows] and unknown names
    nothing. *)
Theorem unread_arguments_ignored (name : string) (a1 a2 : Arguments) :
  reads name a1 = reads name a2 ->
  dispatch remote {| name := name; arguments := Some a1 |}
  = dispatch remote {| name := name; arguments := Some a2 |}.
Proof.
  unfold reads.
  by_operation name;
    cbn [String.eqb Ascii.eqb Bool.eqb orb];
    repeat match goal with H : (name =? _) = false |- _ => rewrite H end;
    cbn [orb]; intros Hreads;
    try (rewrite !unregistered_call by assumption; reflexivity);
    try (injection Hreads as Hd Hc Hi Hs He);
    try (injection Hreads as Hc Hs He);
    try (injection Hreads as Hd);
    step_handler; rewrite ?Hd, ?Hc, ?Hi, ?Hs, ?He; reflexivity.
Qed.

(** X14.  The two metadata operations agree on one answer: on the global
    dataflow, what [search_indicators] gives for the empty keyword is the
    first 50 of the entries [get_indicators] lists. *)
Theorem search_lists_what_indicators_list (a : Arguments)
    (response : Http.Response) (doc : Sdmx.Document) (cl : Sdmx.Codelist.t) :
  dataflow_id a = VStr "GLOBAL_DATAFLOW" ->
  keyword a = VStr EmptyString ->
  remote (metadataUrl "GLOBAL_DATAFLOW") = Return response ->
  Http.json response = Return doc ->
  find is_indicator_codelist (codelists_of doc) = Some cl ->
  exists listed,
    dispatch remote {| name := "get_indicators"; arguments := Some a |}
    = (Return (text_result (Json.stringify listed)),
       [metadataUrl "GLOBAL_DATAFLOW"])
    /\ dispatch remote {| name := "search_indicators"; arguments := Some a |}
       = (Return (text_result (Json.stringify (firstn 50 listed))),
          [metadataUrl "GLOBAL_DATAFLOW"]).
Proof.
  intros Hflow Hkw Hanswer Hjson Hfind.
  exists (map id_label_pair (firstn 100 (codes_of cl))). split.
  - assert (Hurl : remote (metadataUrl (to_string (dataflow_id a)))
                   = Return response) by now rewrite Hflow.
    rewrite (dispatch_get_indicators remote a response doc Hurl Hjson).
    now rewrite Hfind, Hflow.
  - rewrite (dispatch_search_indicators remote a EmptyString response doc
               Hkw Hanswer Hjson).
    rewrite Hfind, (filter_everything _ _ empty_keyword_hits).
    now rewrite firstn_map, firstn_firstn.
Qed.

End WholeOperations.

(** ** The page after loading *)

Section PageClaims.

Import Charts PageBehaviour.

Variable lib : Library.

(** X15.  When the summary parses to a document that holds a truthy value
    under a chart's key, the chart's anchor is on the page and no update of
    an earlier chart has thrown, the chart shows the delivered series: the
    line and bar charts take the value's [labels] and [datasets], the scatter
    chart its [datasets] only, and the chart type stays as constructed.  The
    series are assigned before the chart's own [update()] is called, so they
    are there whether or not that call throws. *)
Theorem summary_replaces_series (dom : Dom) (d : json) (c : ChartId) (v : json) :
  dom (anchor c) = true ->
  prop d (key c) = Some v ->
  truthy v = true ->
  reached lib d (initCharts dom) c = true ->
  chart c (fst (onDOMContentLoaded lib dom (Responded true (Return d))))
  = Some {| type := chart_type c; data := live_data c v |}.
Proof.
  intros Hanchor Hkey Hv Hreached. unfold onDOMContentLoaded.
  rewrite loaded_document, updateChartsWithData_chart, Hkey, Hv, Hreached.
  rewrite initCharts_chart, Hanchor.
  now destruct c.
Qed.

(** X16.  A falsy value under a chart's key ([null], [false], 0 or the
    empty text) counts as no value: the chart keeps the series that
    initialisation installed, whatever the other updates do. *)
Theorem falsy_value_keeps_placeholder (dom : Dom) (d : json) (c : ChartId)
    (v : json) :
  prop d (key c) = Some v ->
  truthy v = false ->
  chart c (fst (onDOMContentLoaded lib dom (Responded true (Return d))))
  = chart c (initCharts dom)
  /\ option_map data
       (chart c (fst (onDOMContentLoaded lib dom (Responded true (Return d)))))
     = if dom (anchor c) then Some (data (installed c)) else None.
Proof.
  intros Hkey Hv. unfold onDOMContentLoaded.
  rewrite loaded_document, updateChartsWithData_chart, Hkey, Hv.
  split; [reflexivity|].
  rewrite initCharts_chart. now destruct (dom (anchor c)).
Qed.

(** A property of a chart that writing a value leaves alone is left alone
    by loading, whatever the summary. *)
Lemma loadDataFromJSON_keeps {A : Type} (f : Chart -> A) (c : ChartId)
    (summary : Summary) (page : Page) :
  (forall v ch, f (written c v ch) = f ch) ->
  option_map f (chart c (fst (loadDataFromJSON lib summary page)))
  = option_map f (chart c page).
Proof.
  intros Hf.
  destruct summary as [message|[|] [d|message]]; try reflexivity.
  rewrite loaded_document, updateChartsWithData_chart.
  destruct (prop d (key c)) as [v|]; [|reflexivity].
  destruct (truthy v && reached lib d page c); [|reflexivity].
  destruct (chart c page) as [ch|]; [|reflexivity].
  cbn [option_map]. now rewrite Hf.
Qed.

(** X17.  Whatever the summary, a chart exists afterwards exactly when its
    anchor is on the page, and its type is the one it was constructed with:
    loading neither creates nor removes a chart nor changes its type. *)
Theorem charts_follow_anchors (dom : Dom) (summary : Summary) (c : ChartId) :
  option_map type (chart c (fst (onDOMContentLoaded lib dom summary)))
  = if dom (anchor c) then Some (chart_type c) else None.
Proof.
  unfold onDOMContentLoaded.
  rewrite (loadDataFromJSON_keeps type c) by reflexivity.
  rewrite initCharts_chart. now destruct (dom (anchor c)).
Qed.

(** X18.  No summary ever changes the labels of the scatter chart: they stay
    the empty list that the constructor put where the placeholder has
    none. *)
Theorem scatter_labels_never_set (dom : Dom) (summary : Summary) :
  option_map (fun ch => labels (data ch))
    (chart Poverty (fst (onDOMContentLoaded lib dom summary)))
  = if dom "povertyChart" then Some (Some (JArr [])) else None.
Proof.
  unfold onDOMContentLoaded.
  rewrite (loadDataFromJSON_keeps (fun ch => labels (data ch)) Poverty)
    by reflexivity.
  rewrite initCharts_chart. cbn [anchor].
  now destruct (dom "povertyChart").
Qed.

Lemma page_by_charts (p1 p2 : Page) :
  (forall c, chart c p1 = chart c p2) -> p1 = p2.
Proof.
  intros H. destruct p1 as [m1 n1 p1], p2 as [m2 n2 p2].
  pose proof (H Mortality) as Hm.
  pose proof (H Nutrition) as Hn.
  pose proof (H Poverty) as Hp.
  cbn [chart mortalityChart nutritionChart povertyChart] in Hm, Hn, Hp.
  now subst.
Qed.

Lemma written_twice (c : ChartId) (v : json) (ch : Chart) :
  written c v (written c v ch) = written c v ch.
Proof. now destruct c. Qed.

(** After the updates, each update would end as it did. *)
Lemma update_ending_again (d : json) (page : Page) (c : ChartId) :
  update_ending lib d (snd (updateChartsWithData lib d page)) c
  = update_ending lib d page c.
Proof.
  unfold update_ending. rewrite updateChartsWithData_chart.
  destruct (prop d (key c)) as [v|]; [|reflexivity].
  destruct (truthy v) eqn:Hv; cbn [andb].
  - destruct (reached lib d page c); [|reflexivity].
    destruct (chart c page) as [ch|]; [|reflexivity].
    cbn [option_map]. now rewrite written_twice.
  - now destruct (chart c page).
Qed.

Lemma reached_again (d : json) (page : Page) (c : ChartId) :
  reached lib d (snd (updateChartsWithData lib d page)) c
  = reached lib d page c.
Proof.
  unfold reached.
  destruct c; cbn [earlier forallb]; now rewrite ?update_ending_again.
Qed.

Lemma updateChartsWithData_twice (d : json) (page : Page) :
  updateChartsWithData lib d (snd (updateChartsWithData lib d page))
  = updateChartsWithData lib d page.
Proof.
  assert (Hnull : d = JNull \/ d <> JNull)
    by (destruct d; [left; reflexivity|right; discriminate..]).
  destruct Hnull as [->|Hd]; [reflexivity|].
  rewrite (surjective_pairing (updateChartsWithData lib d (snd _))).
  rewrite (surjective_pairing (updateChartsWithData lib d page)) at 3.
  f_equal.
  - rewrite !(updateChartsWithData_ending lib d _ Hd).
    now rewrite !update_ending_again.
  - apply page_by_charts. intros c.
    rewrite (updateChartsWithData_chart lib d (snd _)), reached_again.
    rewrite !updateChartsWithData_chart.
    destruct (prop d (key c)) as [v|]; [|reflexivity].
    destruct (truthy v && reached lib d page c); [|reflexivity].
    destruct (chart c page) as [ch|]; [|reflexivity].
    cbn [option_map]. now rewrite written_twice.
Qed.

(** X19.  Loading the same summary a second time changes nothing: the page
    and the lines logged are those of the first load. *)
Theorem load_twice_is_load_once (summary : Summary) (page : Page) :
  loadDataFromJSON lib summary (fst (loadDataFromJSON lib summary page))
  = loadDataFromJSON lib summary page.
Proof.
  destruct summary as [message|[|] [d|message]]; try reflexivity.
  rewrite loaded_document.
  unfold loadDataFromJSON. now rewrite updateChartsWithData_twice.
Qed.

(** X20.  What a chart shows after loading depends on the summary document
    only through the value under that chart's own key and through whether an
    earlier update has thrown: two documents that agree on both give the
    same chart, whatever else they hold. *)
Theorem chart_reads_its_own_key (dom : Dom) (d1 d2 : json) (c : ChartId) :
  prop d1 (key c) = prop d2 (key c) ->
  reached lib d1 (initCharts dom) c = reached lib d2 (initCharts dom) c ->
  chart c (fst (onDOMContentLoaded lib dom (Responded true (Return d1))))
  = chart c (fst (onDOMContentLoaded lib dom (Responded true (Return d2)))).
Proof.
  intros Hsame Hreached. unfold onDOMContentLoaded.
  rewrite !loaded_document, !updateChartsWithData_chart.
  now rewrite Hsame, Hreached.
Qed.

Lemma updateChartsWithData_returns (d : json) (page : Page) :
  d <> JNull ->
  returns (fst (updateChartsWithData lib d page))
  = forallb (fun c => returns (update_ending lib d page c))
      [Mortality; Nutrition; Poverty].
Proof.
  intros Hd. rewrite (updateChartsWithData_ending lib d page Hd).
  cbn [forallb].
  destruct (update_ending lib d page Mortality) as [u|m]; [|reflexivity].
  destruct (update_ending lib d page Nutrition) as [u'|m]; [|reflexivity].
  cbn [returns andb]. now rewrite andb_true_r.
Qed.

(** X21.  The notice about placeholder data is logged exactly when the fetch
    is rejected, the body does not parse, the document is [null], or an
    [update()] throws.  In the first three cases the page is as it was; a
    non-success status also leaves the page as it was, but logs nothing. *)
Theorem notice_logged_on_failure (summary : Summary) (page : Page) :
  snd (loadDataFromJSON lib summary page)
  = (if noticed lib summary page then [placeholder_notice] else [])
  /\ (not_loaded summary = true ->
      fst (loadDataFromJSON lib summary page) = page)
  /\ (forall body, loadDataFromJSON lib (Responded false body) page = (page, [])).
Proof.
  split; [|split; [|reflexivity]].
  - destruct summary as [message|[|] [d|message]]; try reflexivity.
    rewrite loaded_log.
    assert (Hnull : d = JNull \/ d <> JNull)
      by (destruct d; [left; reflexivity|right; discriminate..]).
    destruct Hnull as [->|Hd]; [reflexivity|].
    rewrite (updateChartsWithData_returns d page Hd).
    destruct d; try contradiction; cbn [noticed];
      now destruct (forallb _ _).
  - destruct summary as [message|[|] [d|message]]; try reflexivity;
      try discriminate.
    now destruct d.
Qed.

End PageClaims.
(** X22.  [formatNumber] on an integer: below 1000, every negative number
    included, a safe integer is printed in full, with no unit; from 1000 on
    it is
    divided by the largest of a thousand, a million and a billion that it
    reaches and given the unit K, M or B, so that the figure handed to
    [toFixed(1)] is at least 1 and, for K and M, below 1000. *)
Theorem formatNumber_scales (toFixed1 : Q -> string) (num : Z) :
  ((- JS.MAX_SAFE_INTEGER <= num < 1000)%Z ->
   PageBehaviour.formatNumber toFixed1 num = JS.decimal num)
  /\ ((1000 <= num < 1000000)%Z ->
      PageBehaviour.formatNumber toFixed1 num = toFixed1 (num # 1000)%Q ++ "K"
      /\ (1 <= num # 1000)%Q /\ (num # 1000 < 1000)%Q)
  /\ ((1000000 <= num < 1000000000)%Z ->
      PageBehaviour.formatNumber toFixed1 num
      = toFixed1 (num # 1000000)%Q ++ "M"
      /\ (1 <= num # 1000000)%Q /\ (num # 1000000 < 1000)%Q)
  /\ ((1000000000 <= num)%Z ->
      PageBehaviour.formatNumber toFixed1 num
      = toFixed1 (num # 1000000000)%Q ++ "B"
      /\ (1 <= num # 1000000000)%Q).
Proof.
  unfold PageBehaviour.formatNumber, JS.MAX_SAFE_INTEGER, Qle, Qlt;
    cbn [Qnum Qden].
  repeat split;
    repeat match goal with
      | |- context [(?a <=? ?b)%Z] => destruct (Z.leb_spec a b)
      end; try reflexivity; lia.
Qed.

Lemma formatNumber_scales_witness :
  (1000 <= 1500 < 1000000)%Z
  /\ PageBehaviour.formatNumber (fun _ => "1.5") 1500 = "1.5K"
  /\ PageBehaviour.formatNumber (fun _ => "1.5") (-5000000) = "-5000000".
Proof.
  split; [lia|]. split.
  - exact (proj1 (proj1 (proj2 (formatNumber_scales (fun _ => "1.5") 1500))
                    ltac:(lia))).
  - exact (proj1 (formatNumber_scales (fun _ => "1.5") (-5000000))
             ltac:(unfold JS.MAX_SAFE_INTEGER; lia)).
Defined.

Section OperationWitnesses.

Import JS UnicefServer Claims Behaviour Samples MoreSamples.

Lemma document_failure_reported_witness :
  document_failure (unreachable (metadataUrl "CME")) = Some "fetch failed"
  /\ dispatch unreachable
       {| name := "get_indicators"; arguments := Some (with_dataflow "CME") |}
     = (Return (text_result "Error: Failed to fetch indicators: fetch failed"),
        [metadataUrl "CME"]).
Proof.
  split; [reflexivity|].
  exact (document_failure_reported unreachable "get_indicators"
           (Some (with_dataflow "CME")) (metadataUrl "CME")
           "Failed to fetch indicators: " "fetch failed" eq_refl eq_refl).
Defined.

Lemma data_body_returned_verbatim_witness :
  all_chars is_space "REF_AREA,OBS_VALUE" = false
  /\ dispatch (always (csv_response "REF_AREA,OBS_VALUE"))
       {| name := "get_nutrition_data";
          arguments := Some (for_country VUndefined "BRA") |}
     = (Return (text_result "REF_AREA,OBS_VALUE"),
        [UNICEF_API_BASE ++ "/data/UNICEF,NUTRITION,1.0/BRA.?format=csv"]).
Proof.
  split; [reflexivity|].
  exact (data_body_returned_verbatim
           (always (csv_response "REF_AREA,OBS_VALUE")) "get_nutrition_data"
           (for_country VUndefined "BRA") (VStr "NUTRITION") (VStr "BRA") VNull
           (csv_response "REF_AREA,OBS_VALUE") eq_refl eq_refl eq_refl).
Defined.

Lemma data_fetch_failure_reported_witness :
  dispatch unreachable
    {| name := "get_indicator_for_country";
       arguments := Some (for_country (VStr "CME") "BRA") |}
  = (Return (text_result "Error: Failed to fetch data: fetch failed"),
     [UNICEF_API_BASE ++ "/data/UNICEF,CME,1.0/BRA.?format=csv"]).
Proof.
  exact (data_fetch_failure_reported unreachable "get_indicator_for_country"
           (for_country (VStr "CME") "BRA") (VStr "CME") (VStr "BRA")
           VUndefined "fetch failed" eq_refl eq_refl).
Defined.

Lemma dataflows_listed_witness :
  exists records,
    dispatch (always (dataflows_response [mortality_flow; unnamed_flow]))
      {| name := "list_dataflows"; arguments := None |}
    = (Return (text_result (Json.stringify records)), [discoveryUrl])
    /\ length records = 2.
Proof.
  destruct (dataflows_listed
              (always (dataflows_response [mortality_flow; unnamed_flow]))
              None (dataflows_response [mortality_flow; unnamed_flow]) _
              eq_refl eq_refl)
    as (records & Hdispatch & _ & Hlength & _).
  exists records. split; [exact Hdispatch|exact Hlength].
Defined.

Lemma indicators_counted_witness :
  exists entries,
    dispatch (always (metadata_response [area_list; indicator_list]))
      {| name := "get_indicators"; arguments := Some (with_dataflow "CME") |}
    = (Return (text_result (Json.stringify entries)), [metadataUrl "CME"])
    /\ length entries = 2.
Proof.
  destruct (indicators_counted
              (always (metadata_response [area_list; indicator_list]))
              (with_dataflow "CME")
              (metadata_response [area_list; indicator_list]) _ indicator_list
              eq_refl eq_refl eq_refl)
    as (entries & Hdispatch & Hlength & _).
  exists entries. split; [exact Hdispatch|exact Hlength].
Defined.

Lemma missing_section_is_no_codelist_witness :
  codelists_of {| Sdmx.data := None |} = []
  /\ dispatch (always bare_response)
       {| name := "get_indicators"; arguments := Some (with_dataflow "CME") |}
     = (Return (text_result
          "No indicator codelist found for dataflow CME. Available codelists: "),
        [metadataUrl "CME"]).
Proof.
  split; [reflexivity|].
  exact (proj1 (missing_section_is_no_codelist (always bare_response)
                  (with_dataflow "CME") bare_response _ eq_refl eq_refl)
           eq_refl).
Defined.

Lemma search_ignores_case_witness :
  toLowerCase "POVERTY" = toLowerCase "Poverty"
  /\ dispatch (always (metadata_response [indicator_list]))
       {| name := "search_indicators";
          arguments := Some (with_keyword "POVERTY") |}
     = dispatch (always (metadata_response [indicator_list]))
         {| name := "search_indicators";
            arguments := Some (with_keyword "Poverty") |}.
Proof.
  split; [reflexivity|].
  exact (search_ignores_case (always (metadata_response [indicator_list]))
           (with_keyword "POVERTY") (with_keyword "Poverty")
           "POVERTY" "Poverty" eq_refl eq_refl eq_refl).
Defined.

Lemma empty_keyword_lists_codes_witness :
  dispatch (always (metadata_response [indicator_list]))
    {| name := "search_indicators";
       arguments := Some (with_keyword EmptyString) |}
  = (Return (text_result
       (Json.stringify (map id_label_pair [mortality_code; poverty_code]))),
     [metadataUrl "GLOBAL_DATAFLOW"]).
Proof.
  exact (empty_keyword_lists_codes
           (always (metadata_response [indicator_list]))
           (with_keyword EmptyString) (metadata_response [indicator_list]) _
           indicator_list eq_refl eq_refl eq_refl eq_refl).
Defined.

Lemma keyword_checked_after_fetch_witness :
  is_text (keyword (with_dataflow "CME")) = false
  /\ exists message,
       dispatch (always (metadata_response [indicator_list]))
         {| name := "search_indicators";
            arguments := Some (with_dataflow "CME") |}
       = (Return (text_result
            ("Error: Failed to search indicators: " ++ message)),
          [metadataUrl "GLOBAL_DATAFLOW"]).
Proof.
  split; [reflexivity|].
  exact (keyword_checked_after_fetch
           (always (metadata_response [indicator_list]))
           (with_dataflow "CME") (metadata_response [indicator_list]) _
           indicator_list eq_refl eq_refl eq_refl eq_refl).
Defined.

Lemma unread_arguments_ignored_witness :
  reads "get_child_poverty_data" (for_country (VStr "CME") "BRA")
  = reads "get_child_poverty_data" (for_country VUndefined "BRA")
  /\ dispatch unreachable
       {| name := "get_child_poverty_data";
          arguments := Some (for_country (VStr "CME") "BRA") |}
     = dispatch unreachable
         {| name := "get_child_poverty_data";
            arguments := Some (for_country VUndefined "BRA") |}.
Proof.
  split; [reflexivity|].
  exact (unread_arguments_ignored unreachable "get_child_poverty_data"
           (for_country (VStr "CME") "BRA") (for_country VUndefined "BRA")
           eq_refl).
Defined.

Lemma search_lists_what_indicators_list_witness :
  exists listed,
    dispatch (always (metadata_response [indicator_list]))
      {| name := "search_indicators";
         arguments :=
           Some {| dataflow_id := VStr "GLOBAL_DATAFLOW";
                   country_code := VUndefined; indicator_id := VUndefined;
                   start_year := VUndefined; end_year := VUndefined;
                   keyword := VStr EmptyString |} |}
    = (Return (text_result (Json.stringify (firstn 50 listed))),
       [metadataUrl "GLOBAL_DATAFLOW"]).
Proof.
  destruct (search_lists_what_indicators_list
              (always (metadata_response [indicator_list]))
              {| dataflow_id := VStr "GLOBAL_DATAFLOW";
                 country_code := VUndefined; indicator_id := VUndefined;
                 start_year := VUndefined; end_year := VUndefined;
                 keyword := VStr EmptyString |}
              (metadata_response [indicator_list]) _ indicator_list
              eq_refl eq_refl eq_refl eq_refl eq_refl)
    as (listed & _ & Hsearch).
  exists listed. exact Hsearch.
Defined.

End OperationWitnesses.

Section PageWitnesses.

Import Charts PageBehaviour MoreSamples.

Lemma summary_replaces_series_witness :
  reached lenient mortality_without_datasets (initCharts (fun _ => true))
    Nutrition = true
  /\ chart Nutrition
       (fst (onDOMContentLoaded lenient (fun _ => true)
               (Responded true (Return mortality_without_datasets))))
     = Some {| type := "bar";
               data := {| labels := Some (JArr [JStr "Asia"]);
                          datasets := Some (JArr []) |} |}.
Proof.
  split; [reflexivity|].
  exact (summary_replaces_series lenient (fun _ => true)
           mortality_without_datasets Nutrition
           (JObj [ ("labels", JArr [JStr "Asia"]); ("datasets", JArr []) ])
           eq_refl eq_refl eq_refl eq_refl).
Defined.

Lemma falsy_value_keeps_placeholder_witness :
  prop mortality_only "nutrition" = Some JNull
  /\ option_map data
       (chart Nutrition
          (fst (onDOMContentLoaded strict (fun _ => true)
                  (Responded true (Return mortality_only)))))
     = Some nutritionPlaceholder.
Proof.
  split; [reflexivity|].
  exact (proj2 (falsy_value_keeps_placeholder strict (fun _ => true)
                  mortality_only Nutrition JNull eq_refl eq_refl)).
Defined.

Lemma chart_reads_its_own_key_witness :
  prop mortality_only "poverty" = prop JNull "poverty"
  /\ chart Poverty
       (fst (onDOMContentLoaded strict (fun _ => true)
               (Responded true (Return mortality_only))))
     = chart Poverty
         (fst (onDOMContentLoaded strict (fun _ => true)
                 (Responded true (Return JNull)))).
Proof.
  split; [reflexivity|].
  exact (chart_reads_its_own_key strict (fun _ => true) mortality_only JNull
           Poverty eq_refl eq_refl).
Defined.

Lemma notice_logged_on_failure_witness :
  not_loaded (Rejected "Failed to fetch") = true
  /\ loadDataFromJSON strict (Rejected "Failed to fetch")
       (initCharts (fun _ => true))
     = (initCharts (fun _ => true), [placeholder_notice])
  /\ snd (loadDataFromJSON strict
            (Responded true (Return mortality_without_datasets))
            (initCharts (fun _ => true)))
     = [placeholder_notice].
Proof.
  split; [reflexivity|]. split.
  - destruct (notice_logged_on_failure strict (Rejected "Failed to fetch")
                (initCharts (fun _ => true))) as (Hlog & Hpage & _).
    rewrite (surjective_pairing (loadDataFromJSON _ _ _)).
    now rewrite Hlog, (Hpage eq_refl).
  - exact (proj1 (notice_logged_on_failure strict
                    (Responded true (Return mortality_without_datasets))
                    (initCharts (fun _ => true)))).
Defined.

End PageWitnesses.
